(** * WebSage: extraction, indexing and answering pipeline

    A shallow embedding of the orchestration code of the WebSage
    repository (src/websage and src/app.py) together with the properties
    its specification states about it.

    Layout: Python values (strings, dicts, exceptions), the effect monad,
    the external collaborators as an interface, the functions of the
    source in the order of the data flow, and then the theorems. *)

From Stdlib Require Import List NArith Bool String Ascii Lia Arith.
Import ListNotations.

(* ================================================================== *)
(** ** Python strings *)
(* ================================================================== *)

(** A Python [str] is a sequence of Unicode code points; [len] counts code
    points. The methods below are the ones the source calls. *)
Module Py.

Definition str := list N.

(** A literal of the source, written as a Rocq string of ASCII characters. *)
Definition lit (s : string) : str := map N_of_ascii (list_ascii_of_string s).

Definition len (s : str) : nat := List.length s.

Fixpoint eqb (a b : str) : bool :=
  match a, b with
  | [], [] => true
  | x :: a', y :: b' => N.eqb x y && eqb a' b'
  | _, _ => false
  end.

(** [s.startswith(p)] *)
Fixpoint startswith (s p : str) : bool :=
  match p, s with
  | [], _ => true
  | _ :: _, [] => false
  | y :: p', x :: s' => N.eqb x y && startswith s' p'
  end.

(** [s.startswith((p1, p2, ...))]: true when one of the prefixes matches. *)
Definition startswith_any (s : str) (ps : list str) : bool :=
  existsb (startswith s) ps.

(** Whitespace as CPython's [Py_UNICODE_ISSPACE] has it: what [str.strip()]
    with no argument removes. *)
Definition isspace (c : N) : bool :=
  ((9 <=? c) && (c <=? 13) || (28 <=? c) && (c <=? 32) ||
   (c =? 133) || (c =? 160) || (c =? 5760) ||
   (8192 <=? c) && (c <=? 8202) || (c =? 8232) || (c =? 8233) ||
   (c =? 8239) || (c =? 8287) || (c =? 12288))%N.

(** Line boundaries of [str.splitlines()]. *)
Definition islinebreak (c : N) : bool :=
  ((10 <=? c) && (c <=? 13) || (28 <=? c) && (c <=? 30) ||
   (c =? 133) || (c =? 8232) || (c =? 8233))%N.

Fixpoint lstrip (s : str) : str :=
  match s with
  | [] => []
  | c :: s' => if isspace c then lstrip s' else s
  end.

Definition rstrip (s : str) : str := rev (lstrip (rev s)).

(** [s.strip()] *)
Definition strip (s : str) : str := rstrip (lstrip s).

(** [s.splitlines()]: [cur] is the current line, most recent character
    first. A carriage return followed by a line feed is one boundary; no
    empty line is produced after the last boundary. *)
Fixpoint splitlines_from (cur : str) (s : str) : list str :=
  match s with
  | [] => match cur with [] => [] | _ :: _ => [rev cur] end
  | c :: rest =>
      if islinebreak c then
        rev cur ::
        match rest with
        | c' :: rest' =>
            if (c =? 13)%N && (c' =? 10)%N then splitlines_from [] rest'
            else splitlines_from [] rest
        | [] => splitlines_from [] rest
        end
      else splitlines_from (c :: cur) rest
  end.

Definition splitlines (s : str) : list str := splitlines_from [] s.

(** [s.split(sep)] for a non-empty separator: cut at each occurrence of
    [sep], scanning from the left without overlap. [skip] counts the
    characters of a matched separator still to be passed over. *)
Fixpoint split_from (sep : str) (skip : nat) (cur : str) (s : str) : list str :=
  match s with
  | [] => [rev cur]
  | c :: rest =>
      match skip with
      | S k => split_from sep k cur rest
      | O =>
          if startswith s sep
          then rev cur :: split_from sep (len sep - 1) [] rest
          else split_from sep 0 (c :: cur) rest
      end
  end.

Definition split (s sep : str) : list str := split_from sep 0 [] s.

(** [sep.join(parts)] *)
Fixpoint join (sep : str) (parts : list str) : str :=
  match parts with
  | [] => []
  | [p] => p
  | p :: ps => p ++ sep ++ join sep ps
  end.

(** Truth value of a string: the empty string is false. *)
Definition truthy (s : str) : bool :=
  match s with [] => false | _ :: _ => true end.

(** Truth value of a list: the empty list is false. *)
Definition truthy_list {A} (l : list A) : bool :=
  match l with [] => false | _ :: _ => true end.

(** Truth value of a value that may be [None]. *)
Definition truthy_opt (o : option str) : bool :=
  match o with None => false | Some s => truthy s end.

End Py.

(* ================================================================== *)
(** ** Python dicts, documents and exceptions *)
(* ================================================================== *)

(** A Python [dict] with string keys and values. Iteration follows
    insertion order and assigning to a key that is present keeps its
    place, so the dict is an association list without duplicate keys. *)
Module Dict.

Definition t := list (Py.str * Py.str).

Definition empty : t := [].

(** [d.get(k)] *)
Fixpoint get (d : t) (k : Py.str) : option Py.str :=
  match d with
  | [] => None
  | (k', v) :: d' => if Py.eqb k' k then Some v else get d' k
  end.

(** [d[k] = v] *)
Fixpoint set (d : t) (k v : Py.str) : t :=
  match d with
  | [] => [(k, v)]
  | (k', v') :: d' =>
      if Py.eqb k' k then (k', v) :: d' else (k', v') :: set d' k v
  end.

(** [d.items()] and [d.keys()] *)
Definition items (d : t) : list (Py.str * Py.str) := d.
Definition keys (d : t) : list Py.str := map fst d.

End Dict.

(** langchain's [Document]: the text and its metadata. *)
Record Document := mkDocument {
  page_content : Py.str;
  metadata : Dict.t
}.

(** The exceptions the code raises or catches. [except Exception] catches
    both; [str(e)] is the message. *)
Inductive exn :=
| ValueError (msg : Py.str)
| Exception (msg : Py.str).

Definition str_of_exn (e : exn) : Py.str :=
  match e with ValueError m => m | Exception m => m end.

(** What a call does: it returns a value or raises. *)
Inductive outcome (A : Type) :=
| Returned (a : A)
| Raised (e : exn).

Arguments Returned {A} a.
Arguments Raised {A} e.

(* ================================================================== *)
(** ** Effects *)
(* ================================================================== *)

(** A computation over a state [S] that may raise; the state reached
    before the exception survives it, as Python's does. *)
Definition M (S A : Type) : Type := S -> outcome A * S.

Definition ret {S A} (a : A) : M S A := fun s => (Returned a, s).

Definition bind {S A B} (m : M S A) (k : A -> M S B) : M S B :=
  fun s =>
    match m s with
    | (Returned a, s') => k a s'
    | (Raised e, s') => (Raised e, s')
    end.

Definition raise {S A} (e : exn) : M S A := fun s => (Raised e, s).

(** [try: m  except Exception as e: h e] *)
Definition try_except {S A} (m : M S A) (h : exn -> M S A) : M S A :=
  fun s =>
    match m s with
    | (Returned a, s') => (Returned a, s')
    | (Raised e, s') => h e s'
    end.

(** [for x in xs: body x]; an exception leaves the loop. *)
Fixpoint for_each {S X} (xs : list X) (body : X -> M S unit) : M S unit :=
  match xs with
  | [] => ret tt
  | x :: xs' => bind (body x) (fun _ => for_each xs' body)
  end.

Declare Scope py_scope.
Delimit Scope py_scope with py_m.
Notation "x <- m ;; k" := (bind m (fun x => k))
  (at level 61, m at next level, right associativity) : py_scope.
Notation "m ;; k" := (bind m (fun _ => k))
  (at level 61, right associativity) : py_scope.
Open Scope py_scope.

(* ================================================================== *)
(** ** Configuration and external collaborators *)
(* ================================================================== *)

(** The environment variables the modules read once, when they are
    imported; [os.getenv] gives [None] for a variable that is not set. *)
Record Config := mkConfig {
  OPENAI_API_KEY : option Py.str;
  AZURE_OPENAI_API_KEY : option Py.str;
  AZURE_OPENAI_ENDPOINT : option Py.str;
  AZURE_OPENAI_API_VERSION : option Py.str;
  AZURE_OPENAI_DEPLOYMENT_NAME : option Py.str;
  HUGGINGFACEHUB_API_TOKEN : option Py.str
}.

(** The chat model client [setup_qa_system] constructs, with the
    arguments it passes. *)
Inductive llm_config :=
| AzureChatOpenAI (model openai_api_version azure_endpoint openai_api_key : option Py.str)
                  (temperature : nat)
| ChatOpenAI (model_name : Py.str) (temperature : nat) (openai_api_key : option Py.str).

(** What the program does to the outside, in the order it does it: the
    extractors it enters and the library calls that reach the network or
    build a client. *)
Inductive event :=
| Call_html2text (urls : list Py.str)
| Call_langchain (url : Py.str)
| Call_from_url (url : Py.str)
| Ext_AsyncHtmlLoader_load (urls : list Py.str)
| Ext_Html2Text_transform
| Ext_WebBaseLoader_load (url : Py.str)
| Ext_requests_get (url : Py.str)
| Ext_text_splitter
| Ext_Embeddings_init (api_key model_name : Py.str)
| Ext_FAISS_from_documents
| Ext_llm_init (c : llm_config)
| Ext_RetrievalQA_from_chain_type
| Ext_qa_chain_call (question : Py.str).

(** The third-party libraries and services, as the code consumes them.
    Each call may raise and may change the outside world.
    - [AsyncHtmlLoader_load urls]: [AsyncHtmlLoader(urls).load()];
    - [Html2Text_transform docs]:
      [Html2TextTransformer().transform_documents(docs)];
    - [WebBaseLoader_load url]: [WebBaseLoader(url, header_template).load()];
    - [requests_get_text url]: [requests.get(url, headers, timeout=15)],
      [raise_for_status()], the page parsed by BeautifulSoup, its script,
      style, header, footer and nav elements removed, and [get_text()];
    - [text_splitter_split_documents size overlap docs]:
      [RecursiveCharacterTextSplitter(chunk_size, chunk_overlap, len)
       .split_documents(docs)];
    - [Embeddings_init key model]: [HuggingFaceInferenceAPIEmbeddings(...)];
    - [FAISS_from_documents docs emb]: [FAISS.from_documents(docs, emb)];
    - [llm_init c]: the constructor of the chat model client;
    - [RetrievalQA_from_chain_type llm store k]: the "stuff" chain over a
      retriever of the [k] nearest segments, with the fixed prompt and
      [return_source_documents=True];
    - [qa_chain_call chain question]: [chain({"query": question})], giving
      the result text and the source documents. *)
Class Externals := {
  World : Type;
  Embeddings : Type;
  VectorStore : Type;
  LLM : Type;
  QAChain : Type;
  AsyncHtmlLoader_load : list Py.str -> World -> outcome (list Document) * World;
  Html2Text_transform : list Document -> World -> outcome (list Document) * World;
  WebBaseLoader_load : Py.str -> World -> outcome (list Document) * World;
  requests_get_text : Py.str -> World -> outcome Py.str * World;
  text_splitter_split_documents :
    nat -> nat -> list Document -> World -> outcome (list Document) * World;
  Embeddings_init : Py.str -> Py.str -> World -> outcome Embeddings * World;
  FAISS_from_documents :
    list Document -> Embeddings -> World -> outcome VectorStore * World;
  llm_init : llm_config -> World -> outcome LLM * World;
  RetrievalQA_from_chain_type :
    LLM -> VectorStore -> nat -> World -> outcome QAChain * World;
  qa_chain_call :
    QAChain -> Py.str -> World -> outcome (Py.str * list Document) * World
}.

Section Program.

Context {X : Externals}.

(** The state the functions run in: the outside world and the record of
    what was done to it, oldest event first. *)
Record Env := mkEnv {
  world : World;
  trace : list event
}.

Definition log (ev : event) : M Env unit :=
  fun e => (Returned tt, {| world := world e; trace := trace e ++ [ev] |}).

(** A call of an external collaborator, recorded when it is made. *)
Definition ext {A} (ev : event) (f : World -> outcome A * World) : M Env A :=
  fun e =>
    let (r, w') := f (world e) in
    (r, {| world := w'; trace := trace e ++ [ev] |}).

(* ================================================================== *)
(** ** websage/extractors/beautifulsoup_extractor.py *)
(* ================================================================== *)

(** The whitespace clean-up of [extract_content_from_url]:
    [lines = (line.strip() for line in text.splitlines())],
    [chunks = (phrase.strip() for line in lines for phrase in line.split("  "))],
    [text = '\n'.join(chunk for chunk in chunks if chunk)]. *)
Definition clean_text (text : Py.str) : Py.str :=
  let lines := map Py.strip (Py.splitlines text) in
  let chunks :=
    flat_map (fun line => map Py.strip (Py.split line (Py.lit "  "))) lines in
  Py.join [10%N] (filter Py.truthy chunks).

Definition too_short_message (url : Py.str) : Py.str :=
  Py.lit "Error extracting content from " ++ url ++
  Py.lit ": Content was empty or too short".

Definition failure_message (url : Py.str) (e : exn) : Py.str :=
  Py.lit "Error extracting content from " ++ url ++ Py.lit ": " ++ str_of_exn e.

Definition extract_content_from_url (url : Py.str) : M Env Py.str :=
  try_except
    (log (Call_from_url url) ;;
     raw <- ext (Ext_requests_get url) (requests_get_text url) ;;
     let text := clean_text raw in
     if negb (Py.truthy text) || (Py.len (Py.strip text) <? 10)
     then ret (too_short_message url)
     else ret text)
    (fun e => ret (failure_message url e)).

(* ================================================================== *)
(** ** websage/extractors/langchain_extractor.py *)
(* ================================================================== *)

Definition source_key : Py.str := Py.lit "source".
Definition error_key : Py.str := Py.lit "error".

(** [Document(page_content=content, metadata={"source": src, "error": err})] *)
Definition error_document (content src err : Py.str) : Document :=
  {| page_content := content;
     metadata := Dict.set (Dict.set Dict.empty source_key src) error_key err |}.

Definition extract_content_with_langchain (url : Py.str) : M Env (list Document) :=
  try_except
    (log (Call_langchain url) ;;
     docs <- ext (Ext_WebBaseLoader_load url) (WebBaseLoader_load url) ;;
     match docs with
     | [] =>
         ret [error_document (too_short_message url) url (Py.lit "Empty content")]
     | doc0 :: _ =>
         if Py.len (Py.strip (page_content doc0)) <? 10
         then ret [error_document (too_short_message url) url (Py.lit "Empty content")]
         else ret docs
     end)
    (fun e =>
       ret [error_document (failure_message url e) url (str_of_exn e)]).

(** The validation loop of [extract_content_with_html2text]:
    [valid_docs.append(doc)] for each document with at least ten
    characters once stripped. *)
Definition validate_docs (docs_transformed : list Document) : list Document :=
  fold_left
    (fun valid_docs doc =>
       if 10 <=? Py.len (Py.strip (page_content doc))
       then valid_docs ++ [doc]
       else valid_docs)
    docs_transformed [].

Definition batch_error_document (urls : list Py.str) (reason err : Py.str) : Document :=
  error_document (Py.lit "Error extracting content from URLs: " ++ reason)
                 (Py.join (Py.lit ", ") urls) err.

Definition extract_content_with_html2text (urls : list Py.str) : M Env (list Document) :=
  try_except
    (log (Call_html2text urls) ;;
     docs <- ext (Ext_AsyncHtmlLoader_load urls) (AsyncHtmlLoader_load urls) ;;
     match docs with
     | [] =>
         ret [batch_error_document urls (Py.lit "No content extracted")
                                   (Py.lit "No content extracted")]
     | _ :: _ =>
         docs_transformed <- ext Ext_Html2Text_transform (Html2Text_transform docs) ;;
         let valid_docs := validate_docs docs_transformed in
         match valid_docs with
         | [] =>
             ret [batch_error_document urls
                    (Py.lit "All documents had insufficient content")
                    (Py.lit "Insufficient content")]
         | _ :: _ => ret valid_docs
         end
     end)
    (fun e =>
       ret [batch_error_document urls (str_of_exn e) (str_of_exn e)]).

(* ================================================================== *)
(** ** websage/utils/document_processing.py *)
(* ================================================================== *)

Definition url_schemes : list Py.str := [Py.lit "http://"; Py.lit "https://"].

(** The "Clean URLs" loop of [process_urls]. *)
Definition clean_urls_of (urls : list Py.str) : list Py.str :=
  fold_left
    (fun clean_urls url =>
       let url := Py.strip url in
       if Py.truthy url then
         let url :=
           if negb (Py.startswith_any url url_schemes)
           then Py.lit "https://" ++ url
           else url in
         clean_urls ++ [url]
       else clean_urls)
    urls [].

(** The local variables of [process_urls] that its loops assign, next to
    the environment: an exception leaves them as they were when it was
    raised. *)
Record Frame := mkFrame {
  env : Env;
  contents : Dict.t;
  has_valid_content : bool
}.

(** A call made from [process_urls]. *)
Definition call {A} (m : M Env A) : M Frame A :=
  fun f =>
    let (r, e') := m (env f) in
    (r, {| env := e'; contents := contents f;
           has_valid_content := has_valid_content f |}).

(** [contents[url] = content] *)
Definition store_content (url content : Py.str) : M Frame unit :=
  fun f =>
    (Returned tt, {| env := env f; contents := Dict.set (contents f) url content;
                     has_valid_content := has_valid_content f |}).

Definition set_has_valid_content (b : bool) : M Frame unit :=
  fun f =>
    (Returned tt, {| env := env f; contents := contents f; has_valid_content := b |}).

Definition get_has_valid_content : M Frame bool :=
  fun f => (Returned (has_valid_content f), f).

Definition is_error (content : Py.str) : bool :=
  Py.startswith content (Py.lit "Error").

(** The loop over the documents of the batch extractor. *)
Definition collect_batch (docs : list Document) : M Frame unit :=
  for_each docs (fun doc =>
    let url := Dict.get (metadata doc) source_key in
    match url with
    | Some url =>
        if Py.truthy url && negb (is_error (page_content doc))
        then store_content url (page_content doc) ;; set_has_valid_content true
        else ret tt
    | None => ret tt
    end).

(** The loop that tries WebBaseLoader for each URL; an exception of one
    URL is caught and the loop goes on. *)
Definition retry_individually (clean_urls : list Py.str) : M Frame unit :=
  for_each clean_urls (fun url =>
    try_except
      (docs <- call (extract_content_with_langchain url) ;;
       match docs with
       | doc0 :: _ =>
           if negb (is_error (page_content doc0))
           then store_content url (page_content doc0) ;; set_has_valid_content true
           else ret tt
       | [] => ret tt
       end)
      (fun _ => ret tt)).

(** The BeautifulSoup loop inside the LangChain branch. *)
Definition fall_back_to_beautifulsoup (clean_urls : list Py.str) : M Frame unit :=
  for_each clean_urls (fun url =>
    content <- call (extract_content_from_url url) ;;
    if negb (is_error content)
    then store_content url content ;; set_has_valid_content true
    else ret tt).

(** The "traditional method" loop: every result is stored as it comes. *)
Definition traditional_method (clean_urls : list Py.str) : M Frame unit :=
  for_each clean_urls (fun url =>
    content <- call (extract_content_from_url url) ;;
    store_content url content).

(** The "Final check of results" loop. *)
Definition valid_contents_of (contents : Dict.t) : Dict.t :=
  fold_left
    (fun valid_contents '(url, content) =>
       if negb (is_error content)
       then Dict.set valid_contents url content
       else valid_contents)
    (Dict.items contents) Dict.empty.

Definition process_urls_body (clean_urls : list Py.str) (use_langchain : bool)
  : M Frame unit :=
  if use_langchain && Py.truthy_list clean_urls then
    try_except
      (docs <- call (extract_content_with_html2text clean_urls) ;;
       set_has_valid_content false ;;
       collect_batch docs ;;
       has_valid <- get_has_valid_content ;;
       (if negb has_valid then retry_individually clean_urls else ret tt) ;;
       has_valid <- get_has_valid_content ;;
       (if negb has_valid then fall_back_to_beautifulsoup clean_urls else ret tt))
      (fun _ => traditional_method clean_urls)
  else traditional_method clean_urls.

Definition process_urls (urls : list Py.str) (use_langchain : bool) : M Env Dict.t :=
  fun e =>
    let clean_urls := clean_urls_of urls in
    match process_urls_body clean_urls use_langchain
            {| env := e; contents := Dict.empty; has_valid_content := false |} with
    | (Returned _, f) =>
        let contents := contents f in
        let valid_contents := valid_contents_of contents in
        (Returned contents, env f)
    | (Raised ex, f) => (Raised ex, env f)
    end.

(** [create_documents_from_contents] *)
Definition create_documents_from_contents (contents : Dict.t) : list Document :=
  fold_left
    (fun documents '(url, content) =>
       if negb (is_error content)
       then documents ++
            [{| page_content := content;
                metadata := Dict.set Dict.empty source_key url |}]
       else documents)
    (Dict.items contents) [].

(** [split_documents] *)
Definition split_documents (documents : list Document) : M Env (list Document) :=
  match documents with
  | [] => ret []
  | _ :: _ =>
      ext Ext_text_splitter (text_splitter_split_documents 1000 200 documents)
  end.

(* ================================================================== *)
(** ** websage/models/embeddings.py *)
(* ================================================================== *)

Definition embedding_model : Py.str := Py.lit "BAAI/bge-base-en-v1.5".

Definition no_embeddings_message : Py.str :=
  Py.lit "No embeddings service available - please set HUGGINGFACEHUB_API_TOKEN in your .env file".

(** [create_vector_store]; [HF_token] is read from the configuration. *)
Definition create_vector_store (cfg : Config) (documents : list Document)
  : M Env VectorStore :=
  let HF_token := HUGGINGFACEHUB_API_TOKEN cfg in
  match HF_token with
  | Some token =>
      if negb (Py.truthy token) then raise (ValueError no_embeddings_message)
      else
        embeddings <-
          try_except
            (ext (Ext_Embeddings_init token embedding_model)
                 (Embeddings_init token embedding_model))
            (fun e =>
               raise (ValueError (Py.lit "Error creating embeddings: " ++ str_of_exn e))) ;;
        ext Ext_FAISS_from_documents (FAISS_from_documents documents embeddings)
  | None => raise (ValueError no_embeddings_message)
  end.

(* ================================================================== *)
(** ** websage/models/question_answering.py *)
(* ================================================================== *)

(** Python's [a and b] and [a or b] on values that may be [None]: the
    operand that decides the truth value is the result. *)
Definition py_and (a b : option Py.str) : option Py.str :=
  if Py.truthy_opt a then b else a.

Definition py_or (a b : option Py.str) : option Py.str :=
  if Py.truthy_opt a then a else b.

(** [using_azure = azure_api_key and azure_endpoint and azure_deployment] *)
Definition using_azure (cfg : Config) : option Py.str :=
  py_and (py_and (AZURE_OPENAI_API_KEY cfg) (AZURE_OPENAI_ENDPOINT cfg))
         (AZURE_OPENAI_DEPLOYMENT_NAME cfg).

(** The client [setup_qa_system] builds: the two branches of its [if]. *)
Definition llm_of (cfg : Config) : llm_config :=
  if Py.truthy_opt (using_azure cfg) then
    AzureChatOpenAI (AZURE_OPENAI_DEPLOYMENT_NAME cfg) (AZURE_OPENAI_API_VERSION cfg)
                    (AZURE_OPENAI_ENDPOINT cfg) (AZURE_OPENAI_API_KEY cfg) 0
  else
    ChatOpenAI (Py.lit "gpt-3.5-turbo") 0 (OPENAI_API_KEY cfg).

Definition setup_qa_system (cfg : Config) (vector_store : VectorStore) : M Env QAChain :=
  llm <- ext (Ext_llm_init (llm_of cfg)) (llm_init (llm_of cfg)) ;;
  ext Ext_RetrievalQA_from_chain_type (RetrievalQA_from_chain_type llm vector_store 4).

Definition get_answer (qa_chain : QAChain) (question : Py.str)
  : M Env (Py.str * list Document) :=
  ext (Ext_qa_chain_call question) (qa_chain_call qa_chain question).

(* ================================================================== *)
(** ** app.py and websage/web/components.py *)
(* ================================================================== *)

(** [has_credentials = openai_api_key or using_azure] *)
Definition has_credentials (cfg : Config) : option Py.str :=
  py_or (OPENAI_API_KEY cfg) (using_azure cfg).

(** [st.session_state] *)
Record Session := mkSession {
  urls_content : Dict.t;
  qa_chain : option QAChain;
  processed_urls : list Py.str;
  error_logs : list Py.str
}.

Definition initial_session : Session :=
  {| urls_content := Dict.empty; qa_chain := None;
     processed_urls := []; error_logs := [] |}.

Record App := mkApp {
  app_env : Env;
  session : Session
}.

(** A call made from the application. *)
Definition in_app {A} (m : M Env A) : M App A :=
  fun a =>
    let (r, e') := m (app_env a) in
    (r, {| app_env := e'; session := session a |}).

Definition update_session (f : Session -> Session) : M App unit :=
  fun a => (Returned tt, {| app_env := app_env a; session := f (session a) |}).

Definition get_session : M App Session :=
  fun a => (Returned (session a), a).

(** [process_callback]: the progress bar and the status text are left out. *)
Definition process_callback (cfg : Config) (contents : Dict.t) : M App bool :=
  update_session (fun s =>
    {| urls_content := contents; qa_chain := qa_chain s;
       processed_urls := processed_urls s; error_logs := error_logs s |}) ;;
  let documents := create_documents_from_contents contents in
  if Py.truthy_list documents then
    split_docs <- in_app (split_documents documents) ;;
    try_except
      (vector_store <- in_app (create_vector_store cfg split_docs) ;;
       chain <- in_app (setup_qa_system cfg vector_store) ;;
       update_session (fun s =>
         {| urls_content := urls_content s; qa_chain := Some chain;
            processed_urls := Dict.keys contents; error_logs := error_logs s |}) ;;
       ret true)
      (fun e =>
         update_session (fun s =>
           {| urls_content := urls_content s; qa_chain := qa_chain s;
              processed_urls := processed_urls s;
              error_logs := error_logs s ++ [str_of_exn e] |}) ;;
         ret false)
  else ret false.

Inductive extraction_method :=
| LangChain_Recommended
| BeautifulSoup
| Try_all_methods.

(** What the user did before one run of the script: the widgets' values
    and which button, if any, reports a click. *)
Record Interaction := mkInteraction {
  urls_input : Py.str;
  method : extraction_method;
  extract_button : bool;
  question : Py.str;
  ask_button : bool
}.

(** [url_input_section]: the part run when "Extract Content" is clicked. *)
Definition url_input_section (cfg : Config) (ui : Interaction) : M App unit :=
  if extract_button ui && Py.truthy (urls_input ui) && Py.truthy_opt (has_credentials cfg)
  then
    update_session (fun s =>
      {| urls_content := urls_content s; qa_chain := qa_chain s;
         processed_urls := processed_urls s; error_logs := [] |}) ;;
    let urls := Py.split (Py.strip (urls_input ui)) [10%N] in
    let use_langchain :=
      match method ui with
      | LangChain_Recommended | Try_all_methods => true
      | BeautifulSoup => false
      end in
    result <- in_app (process_urls urls use_langchain) ;;
    _ <- process_callback cfg result ;;
    ret tt
  else ret tt.

(** [qa_section]: the answer and its sources when "Ask" is clicked and a
    chain exists. *)
Definition qa_section (ui : Interaction) : M App (option (Py.str * list Document)) :=
  s <- get_session ;;
  match qa_chain s with
  | Some chain =>
      if ask_button ui && Py.truthy (question ui)
      then answer <- in_app (get_answer chain (question ui)) ;; ret (Some answer)
      else ret None
  | None => ret None
  end.

(** [main]: one run of the script. *)
Definition main (cfg : Config) (ui : Interaction)
  : M App (option (Py.str * list Document)) :=
  url_input_section cfg ui ;;
  qa_section ui.

(** The application after a series of runs; an exception ends a run and
    the session state stays as the run left it. *)
Definition run_session (cfg : Config) (uis : list Interaction) (a : App) : App :=
  fold_left (fun a ui => snd (main cfg ui a)) uis a.

End Program.

(* ================================================================== *)
(** ** Vocabulary of the statements *)
(* ================================================================== *)

(** The first character of a string is not whitespace (or there is none). *)
Definition head_ok (s : Py.str) : bool :=
  match s with [] => true | c :: _ => negb (Py.isspace c) end.

(** Neither end of the string is whitespace. *)
Definition trimmed (s : Py.str) : Prop :=
  head_ok s = true /\ head_ok (rev s) = true.

(** A document that passes the validation of the batch extractor. *)
Definition survives_validation (doc : Document) : bool :=
  10 <=? Py.len (Py.strip (page_content doc)).

(** The keys the orchestrator takes from the documents of the batch
    extractor: the sources of the usable ones. *)
Definition batch_sources (docs : list Document) : list Py.str :=
  flat_map
    (fun d =>
       match Dict.get (metadata d) source_key with
       | Some u => if Py.truthy u && negb (Py.startswith (page_content d) (Py.lit "Error"))
                   then [u] else []
       | None => []
       end)
    docs.

(** The normalization as the specification words it: trim, drop the
    blank entries, prefix the entries that lack a scheme. *)
Definition add_scheme (url : Py.str) : Py.str :=
  if Py.startswith url (Py.lit "http://") || Py.startswith url (Py.lit "https://")
  then url
  else Py.lit "https://" ++ url.

Definition normalize (urls : list Py.str) : list Py.str :=
  map add_scheme (filter Py.truthy (map Py.strip urls)).

(** The URLs an event hands to an extractor or to the network. *)
Definition event_urls (ev : event) : list Py.str :=
  match ev with
  | Call_html2text urls | Ext_AsyncHtmlLoader_load urls => urls
  | Call_langchain url | Call_from_url url
  | Ext_WebBaseLoader_load url | Ext_requests_get url => [url]
  | _ => []
  end.

(* ================================================================== *)
(** ** Words for what the orchestrator does *)
(* ================================================================== *)

Section Contracts.

Context {X : Externals}.

(** A document the orchestrator takes from the batch extractor: it has a
    source and its text is not an error message. *)
Definition usable (doc : Document) : bool :=
  Py.truthy_opt (Dict.get (metadata doc) source_key) &&
  negb (is_error (page_content doc)).

(** What the single-page extractor costs and gives. *)
Definition from_url_events (url : Py.str) : list event :=
  [Call_from_url url; Ext_requests_get url].

Definition from_url_result (url : Py.str) (r : outcome Py.str) : Py.str :=
  match r with
  | Returned raw =>
      if Py.len (clean_text raw) <? 10 then too_short_message url else clean_text raw
  | Raised ex => failure_message url ex
  end.

Definition langchain_events (url : Py.str) : list event :=
  [Call_langchain url; Ext_WebBaseLoader_load url].

(** The batch extractor never raises and never returns an empty list;
    what it returns is decided by the loader and the transformer. *)
Definition html2text_result (urls : list Py.str) (w : World) : list Document :=
  match AsyncHtmlLoader_load urls w with
  | (Returned [], _) =>
      [batch_error_document urls (Py.lit "No content extracted")
                            (Py.lit "No content extracted")]
  | (Returned (d :: ds), w1) =>
      match Html2Text_transform (d :: ds) w1 with
      | (Returned transformed, _) =>
          match filter survives_validation transformed with
          | [] => [batch_error_document urls
                     (Py.lit "All documents had insufficient content")
                     (Py.lit "Insufficient content")]
          | v :: vs => v :: vs
          end
      | (Raised ex, _) => [batch_error_document urls (str_of_exn ex) (str_of_exn ex)]
      end
  | (Raised ex, _) => [batch_error_document urls (str_of_exn ex) (str_of_exn ex)]
  end.

Definition html2text_events (urls : list Py.str) (w : World) : list event :=
  Call_html2text urls :: Ext_AsyncHtmlLoader_load urls ::
  match AsyncHtmlLoader_load urls w with
  | (Returned (_ :: _), _) => [Ext_Html2Text_transform]
  | _ => []
  end.

(** The keys a loop may add are among [allowed]. *)
Definition keys_within (allowed : list Py.str) (f f' : Frame) : Prop :=
  forall k, In k (Dict.keys (contents f')) ->
            In k (Dict.keys (contents f)) \/ In k allowed.

(** The single-URL structure-preserving extractor run on every URL, in
    order: each URL with what the extractor did for it, and the
    environment reached. *)
Fixpoint langchain_pass (urls : list Py.str) (e : Env)
  : list (Py.str * outcome (list Document)) * Env :=
  match urls with
  | [] => ([], e)
  | url :: rest =>
      let (r, e1) := extract_content_with_langchain url e in
      let (results, e2) := langchain_pass rest e1 in
      ((url, r) :: results, e2)
  end.

(** The single-page extractor run on every URL, in order. *)
Fixpoint from_url_pass (urls : list Py.str) (e : Env)
  : list (Py.str * outcome Py.str) * Env :=
  match urls with
  | [] => ([], e)
  | url :: rest =>
      let (r, e1) := extract_content_from_url url e in
      let (results, e2) := from_url_pass rest e1 in
      ((url, r) :: results, e2)
  end.

(** A result the orchestrator keeps: the first document, or the text, is
    there and is not an error message. *)
Definition first_doc_valid (r : outcome (list Document)) : bool :=
  match r with
  | Returned (doc0 :: _) => negb (is_error (page_content doc0))
  | _ => false
  end.

Definition content_valid (r : outcome Py.str) : bool :=
  match r with
  | Returned content => negb (is_error content)
  | Raised _ => false
  end.

(** The mapping after the kept results are stored, in order. *)
Definition store_langchain_results
    (results : list (Py.str * outcome (list Document))) (contents : Dict.t) : Dict.t :=
  fold_left
    (fun contents '(url, r) =>
       match r with
       | Returned (doc0 :: _) =>
           if negb (is_error (page_content doc0))
           then Dict.set contents url (page_content doc0)
           else contents
       | _ => contents
       end)
    results contents.

Definition store_from_url_results
    (results : list (Py.str * outcome Py.str)) (contents : Dict.t) : Dict.t :=
  fold_left
    (fun contents '(url, r) =>
       match r with
       | Returned content =>
           if negb (is_error content) then Dict.set contents url content else contents
       | Raised _ => contents
       end)
    results contents.

End Contracts.

(* ================================================================== *)
(** ** A small world to run the program in *)
(* ================================================================== *)

(** The web is a table from URL to page text; a URL that is not in it
    cannot be reached. Nothing else of the outside world has state. *)
Module TestWorld.

Definition connection_refused : exn := Exception (Py.lit "connection refused").

Definition fetch (web : Dict.t) (url : Py.str) : outcome Py.str :=
  match Dict.get web url with
  | Some text => Returned text
  | None => Raised connection_refused
  end.

Definition load_one (web : Dict.t) (url : Py.str) : Document :=
  {| page_content := match Dict.get web url with Some t => t | None => [] end;
     metadata := Dict.set Dict.empty source_key url |}.

Definition externals : Externals :=
  {| World := Dict.t;
     Embeddings := Py.str;
     VectorStore := list Document;
     LLM := llm_config;
     QAChain := llm_config * list Document;
     AsyncHtmlLoader_load := fun urls web => (Returned (map (load_one web) urls), web);
     Html2Text_transform := fun docs web => (Returned docs, web);
     WebBaseLoader_load := fun url web =>
       match Dict.get web url with
       | Some _ => (Returned [load_one web url], web)
       | None => (Raised connection_refused, web)
       end;
     requests_get_text := fun url web => (fetch web url, web);
     text_splitter_split_documents := fun _ _ docs web => (Returned docs, web);
     Embeddings_init := fun key _ web => (Returned key, web);
     FAISS_from_documents := fun docs _ web => (Returned docs, web);
     llm_init := fun c web => (Returned c, web);
     RetrievalQA_from_chain_type := fun llm store _ web => (Returned (llm, store), web);
     qa_chain_call := fun chain _ web => (Returned (Py.lit "answer", snd chain), web) |}.

Definition url_a : Py.str := Py.lit "https://example.com/a".
Definition url_b : Py.str := Py.lit "https://example.com/b".
Definition url_errors : Py.str := Py.lit "https://example.com/errors".

Definition text_b : Py.str := Py.lit "Lorem ipsum dolor sit amet, consectetur adipiscing elit.".
Definition text_errors : Py.str := Py.lit "Error handling in Python: try, except and finally.".

(** Page b has ordinary text, the page on errors has text that begins with
    the word "Error", page a is not there. *)
Definition web : Dict.t := [(url_b, text_b); (url_errors, text_errors)].

Definition start (w : Dict.t) : @Env externals := @mkEnv externals w [].

Definition no_credentials : Config :=
  {| OPENAI_API_KEY := None; AZURE_OPENAI_API_KEY := None;
     AZURE_OPENAI_ENDPOINT := None; AZURE_OPENAI_API_VERSION := None;
     AZURE_OPENAI_DEPLOYMENT_NAME := None; HUGGINGFACEHUB_API_TOKEN := None |}.

(** The user fills in a URL and a question and clicks both buttons. *)
Definition eager_user : Interaction :=
  {| urls_input := url_b; method := Try_all_methods; extract_button := true;
     question := Py.lit "What is it about?"; ask_button := true |}.

Definition fresh_app : @App externals :=
  @mkApp externals (start web) (@initial_session externals).

End TestWorld.

(** Without credentials the application stays as it started. *)
Definition forall_runs_idle : Prop :=
  Py.truthy_opt (has_credentials TestWorld.no_credentials) = false /\
  @run_session TestWorld.externals TestWorld.no_credentials
    [TestWorld.eager_user; TestWorld.eager_user] TestWorld.fresh_app
  = TestWorld.fresh_app.

(** Two more small worlds, which differ from the first in the batch
    loader only. *)
Module Fakes.

Definition batch_down_error : exn := Exception (Py.lit "event loop is closed").

(** The batch loader is down; everything else works. *)
Definition batch_down : Externals :=
  {| World := Dict.t;
     Embeddings := Py.str;
     VectorStore := list Document;
     LLM := llm_config;
     QAChain := llm_config * list Document;
     AsyncHtmlLoader_load := fun _ web => (Raised batch_down_error, web);
     Html2Text_transform := @Html2Text_transform TestWorld.externals;
     WebBaseLoader_load := @WebBaseLoader_load TestWorld.externals;
     requests_get_text := @requests_get_text TestWorld.externals;
     text_splitter_split_documents := @text_splitter_split_documents TestWorld.externals;
     Embeddings_init := @Embeddings_init TestWorld.externals;
     FAISS_from_documents := @FAISS_from_documents TestWorld.externals;
     llm_init := @llm_init TestWorld.externals;
     RetrievalQA_from_chain_type := @RetrievalQA_from_chain_type TestWorld.externals;
     qa_chain_call := @qa_chain_call TestWorld.externals |}.

(** Where a request for [url] ends after the site's redirect. *)
Definition redirected (url : Py.str) : Py.str := url ++ Py.lit "/".

(** The batch loader tags each document with the address the request
    ended at, not with the one it was asked for. *)
Definition redirecting : Externals :=
  {| World := Dict.t;
     Embeddings := Py.str;
     VectorStore := list Document;
     LLM := llm_config;
     QAChain := llm_config * list Document;
     AsyncHtmlLoader_load := fun urls web =>
       (Returned
          (map (fun url =>
                  {| page_content := page_content (TestWorld.load_one web url);
                     metadata := Dict.set Dict.empty source_key (redirected url) |})
               urls),
        web);
     Html2Text_transform := @Html2Text_transform TestWorld.externals;
     WebBaseLoader_load := @WebBaseLoader_load TestWorld.externals;
     requests_get_text := @requests_get_text TestWorld.externals;
     text_splitter_split_documents := @text_splitter_split_documents TestWorld.externals;
     Embeddings_init := @Embeddings_init TestWorld.externals;
     FAISS_from_documents := @FAISS_from_documents TestWorld.externals;
     llm_init := @llm_init TestWorld.externals;
     RetrievalQA_from_chain_type := @RetrievalQA_from_chain_type TestWorld.externals;
     qa_chain_call := @qa_chain_call TestWorld.externals |}.

Definition url_c : Py.str := Py.lit "https://example.com/c".

End Fakes.

(* ================================================================== *)
(** ** Facts about strings and dicts *)
(* ================================================================== *)

Lemma py_eqb_eq (a b : Py.str) : Py.eqb a b = true <-> a = b.
Proof.
  revert b; induction a as [|x a IH]; intros [|y b]; simpl; try easy.
  rewrite andb_true_iff, N.eqb_eq, IH. split.
  - intros [-> ->]; reflexivity.
  - intros H; injection H; auto.
Qed.

Lemma py_eqb_refl (a : Py.str) : Py.eqb a a = true.
Proof. apply py_eqb_eq; reflexivity. Qed.

Lemma lstrip_suffix (s : Py.str) : exists p, s = p ++ Py.lstrip s.
Proof.
  induction s as [|c s [p IH]]; simpl.
  - exists []; reflexivity.
  - destruct (Py.isspace c).
    + exists (c :: p); simpl; now rewrite <- IH.
    + exists []; reflexivity.
Qed.

Lemma lstrip_length (s : Py.str) : List.length (Py.lstrip s) <= List.length s.
Proof.
  destruct (lstrip_suffix s) as [p H].
  rewrite H at 2. rewrite length_app. lia.
Qed.

Lemma head_ok_lstrip (s : Py.str) : head_ok (Py.lstrip s) = true.
Proof.
  induction s as [|c s IH]; simpl; auto.
  destruct (Py.isspace c) eqn:E; auto. simpl. now rewrite E.
Qed.

Lemma lstrip_head_ok (s : Py.str) : head_ok s = true -> Py.lstrip s = s.
Proof.
  destruct s as [|c s]; simpl; auto.
  destruct (Py.isspace c); simpl; easy.
Qed.

Lemma head_ok_app (s t : Py.str) : s <> [] -> head_ok s = true -> head_ok (s ++ t) = true.
Proof. destruct s; simpl; auto; congruence. Qed.

Lemma strip_length (s : Py.str) : Py.len (Py.strip s) <= Py.len s.
Proof.
  unfold Py.len, Py.strip, Py.rstrip. rewrite length_rev.
  etransitivity; [apply lstrip_length|]. rewrite length_rev. apply lstrip_length.
Qed.

Lemma strip_trimmed (s : Py.str) : trimmed s -> Py.strip s = s.
Proof.
  intros [H1 H2]. unfold Py.strip, Py.rstrip.
  rewrite (lstrip_head_ok _ H1), (lstrip_head_ok _ H2). apply rev_involutive.
Qed.

Lemma trimmed_strip (s : Py.str) : trimmed (Py.strip s).
Proof.
  unfold trimmed, Py.strip, Py.rstrip. split.
  - pose proof (head_ok_lstrip s) as H.
    destruct (lstrip_suffix (rev (Py.lstrip s))) as [p Hp].
    remember (Py.lstrip (rev (Py.lstrip s))) as t.
    assert (E : Py.lstrip s = rev t ++ rev p).
    { rewrite <- rev_app_distr, <- Hp. symmetry; apply rev_involutive. }
    destruct (rev t) as [|c r] eqn:Er; auto.
    rewrite E in H. exact H.
  - rewrite rev_involutive. apply head_ok_lstrip.
Qed.

Lemma join_first (sep c : Py.str) (cs : list Py.str) :
  exists suf, Py.join sep (c :: cs) = c ++ suf.
Proof.
  destruct cs as [|c' cs]; simpl.
  - exists []; now rewrite app_nil_r.
  - eexists; reflexivity.
Qed.

Lemma join_last (sep : Py.str) (cs : list Py.str) :
  cs <> [] -> exists pre, Py.join sep cs = pre ++ last cs [].
Proof.
  induction cs as [|c cs IH]; [congruence|]. intros _.
  destruct cs as [|c' cs].
  - exists []; reflexivity.
  - destruct IH as [pre IH]; [congruence|].
    exists (c ++ sep ++ pre).
    change (Py.join sep (c :: c' :: cs)) with (c ++ sep ++ Py.join sep (c' :: cs)).
    change (last (c :: c' :: cs) []) with (last (c' :: cs) []).
    rewrite IH. now rewrite <- !app_assoc.
Qed.

Lemma trimmed_join (sep : Py.str) (cs : list Py.str) :
  Forall (fun c => trimmed c /\ c <> []) cs -> trimmed (Py.join sep cs).
Proof.
  intros H. destruct cs as [|c cs]; [split; reflexivity|]. split.
  - destruct (join_first sep c cs) as [suf ->].
    inversion H as [|? ? [[Hh _] Hne] _]; subst. now apply head_ok_app.
  - destruct (join_last sep (c :: cs)) as [pre ->]; [congruence|].
    rewrite rev_app_distr.
    assert (Hl : In (last (c :: cs) []) (c :: cs)).
    { destruct (@exists_last _ (c :: cs)) as (l' & a & E); [congruence|].
      rewrite E, last_last. apply in_or_app; right; left; reflexivity. }
    rewrite Forall_forall in H. destruct (H _ Hl) as [[_ Hr] Hne].
    apply head_ok_app; auto.
    intros E. apply Hne. rewrite <- (rev_involutive (last (c :: cs) [])), E. reflexivity.
Qed.

Lemma clean_text_trimmed (text : Py.str) : trimmed (clean_text text).
Proof.
  unfold clean_text. apply trimmed_join, Forall_forall.
  intros c Hc. apply filter_In in Hc. destruct Hc as [Hin Ht]. split.
  - apply in_flat_map in Hin. destruct Hin as (line & _ & Hin).
    apply in_map_iff in Hin. destruct Hin as (phrase & <- & _).
    apply trimmed_strip.
  - intros ->. discriminate.
Qed.

(** Stripping the cleaned text changes nothing: the length test of
    [extract_content_from_url] is a test on the cleaned text itself. *)
Lemma strip_clean_text (text : Py.str) : Py.strip (clean_text text) = clean_text text.
Proof. apply strip_trimmed, clean_text_trimmed. Qed.

Lemma too_short_test (text : Py.str) :
  negb (Py.truthy (clean_text text)) || (Py.len (Py.strip (clean_text text)) <? 10)
  = (Py.len (clean_text text) <? 10).
Proof.
  rewrite strip_clean_text.
  destruct (clean_text text); simpl; auto.
Qed.

(** Appending in a loop is filtering. *)
Lemma fold_left_append_filter {A B} (keep : A -> bool) (f : A -> B) (xs : list A) (acc : list B) :
  fold_left (fun acc x => if keep x then acc ++ [f x] else acc) xs acc
  = acc ++ map f (filter keep xs).
Proof.
  revert acc; induction xs as [|x xs IH]; intros acc; simpl.
  - now rewrite app_nil_r.
  - rewrite IH. destruct (keep x); simpl; auto. now rewrite <- app_assoc.
Qed.

Lemma validate_docs_filter (docs : list Document) :
  validate_docs docs = filter survives_validation docs.
Proof.
  unfold validate_docs.
  rewrite (fold_left_append_filter survives_validation (fun d => d)).
  simpl. now rewrite map_id.
Qed.

Lemma dict_keys_set (d : Dict.t) (k v x : Py.str) :
  In x (Dict.keys (Dict.set d k v)) <-> In x (Dict.keys d) \/ x = k.
Proof.
  unfold Dict.keys. induction d as [|[k' v'] d IH]; simpl.
  - intuition.
  - destruct (Py.eqb k' k) eqn:E; simpl.
    + apply py_eqb_eq in E. subst. intuition.
    + rewrite IH. intuition.
Qed.

Lemma dict_set_in (d : Dict.t) (k v k' v' : Py.str) :
  In (k, v) (Dict.set d k' v') -> In (k, v) d \/ v = v'.
Proof.
  induction d as [|[k0 v0] d IH]; simpl.
  - intros [H|[]]. injection H as _ <-. now right.
  - destruct (Py.eqb k0 k'); simpl.
    + intros [H|H]; [injection H as _ <-; now right|left; now right].
    + intros [H|H]; [left; now left|]. destruct (IH H); [left; now right|now right].
Qed.

(** What the final check of [process_urls] computes holds no error message. *)
Lemma valid_contents_no_error (contents : Dict.t) (k v : Py.str) :
  In (k, v) (valid_contents_of contents) -> is_error v = false.
Proof.
  unfold valid_contents_of, Dict.items.
  assert (H : forall acc : Dict.t,
            (forall k v, In (k, v) acc -> is_error v = false) ->
            forall k v,
              In (k, v)
                (fold_left
                   (fun valid_contents '(url, content) =>
                      if negb (is_error content)
                      then Dict.set valid_contents url content
                      else valid_contents)
                   contents acc) ->
              is_error v = false).
  { induction contents as [|[url content] contents IH]; intros acc Hacc; simpl; auto.
    apply IH. destruct (is_error content) eqn:E; simpl; auto.
    intros k0 v0 Hin. apply dict_set_in in Hin. destruct Hin as [Hin| ->]; eauto. }
  apply H. intros k0 v0 [].
Qed.

Lemma dict_get_set_same (d : Dict.t) (k v : Py.str) : Dict.get (Dict.set d k v) k = Some v.
Proof.
  induction d as [|[k' v'] d IH]; simpl.
  - now rewrite py_eqb_refl.
  - destruct (Py.eqb k' k) eqn:E; simpl; rewrite E; auto.
Qed.

(* ================================================================== *)
(** ** Facts about the extractors *)
(* ================================================================== *)

Section ExtractorFacts.

Context {X : Externals}.

Lemma extract_content_from_url_run (url : Py.str) (e : Env) :
  extract_content_from_url url e =
  (Returned (from_url_result url (fst (requests_get_text url (world e)))),
   {| world := snd (requests_get_text url (world e));
      trace := trace e ++ from_url_events url |}).
Proof.
  unfold extract_content_from_url, try_except, bind, log, ext, ret, from_url_events.
  simpl. destruct (requests_get_text url (world e)) as [[raw|ex] w']; simpl.
  - rewrite too_short_test. destruct (Py.len (clean_text raw) <? 10);
      now rewrite <- app_assoc.
  - now rewrite <- app_assoc.
Qed.

Lemma extract_content_with_langchain_run (url : Py.str) (e : Env) :
  exists docs w',
    extract_content_with_langchain url e =
    (Returned docs, {| world := w'; trace := trace e ++ langchain_events url |}).
Proof.
  unfold extract_content_with_langchain, try_except, bind, log, ext, ret, langchain_events.
  simpl. destruct (WebBaseLoader_load url (world e)) as [[docs|ex] w']; simpl.
  - destruct docs as [|doc0 docs]; simpl.
    + do 2 eexists. now rewrite <- app_assoc.
    + destruct (Py.len (Py.strip (page_content doc0)) <? 10);
        do 2 eexists; now rewrite <- app_assoc.
  - do 2 eexists. now rewrite <- app_assoc.
Qed.

Lemma extract_content_with_html2text_run (urls : list Py.str) (e : Env) :
  exists w',
    extract_content_with_html2text urls e =
    (Returned (html2text_result urls (world e)),
     {| world := w'; trace := trace e ++ html2text_events urls (world e) |}).
Proof.
  unfold extract_content_with_html2text, try_except, bind, log, ext, ret,
    html2text_result, html2text_events.
  simpl. destruct (AsyncHtmlLoader_load urls (world e)) as [[docs|ex] w1]; simpl.
  - destruct docs as [|d ds]; simpl.
    + eexists. now rewrite <- app_assoc.
    + destruct (Html2Text_transform (d :: ds) w1) as [[transformed|ex] w2]; simpl.
      * rewrite validate_docs_filter.
        destruct (filter survives_validation transformed);
          eexists; now rewrite <- !app_assoc.
      * eexists. now rewrite <- !app_assoc.
  - eexists. now rewrite <- app_assoc.
Qed.

End ExtractorFacts.

(* ================================================================== *)
(** ** Facts about the orchestrator *)
(* ================================================================== *)

Section OrchestratorFacts.

Context {X : Externals}.

Lemma call_run {A} (m : M Env A) (f : Frame) r e' :
  m (env f) = (r, e') ->
  call m f = (r, {| env := e'; contents := contents f;
                    has_valid_content := has_valid_content f |}).
Proof. unfold call; now intros ->. Qed.

Lemma keys_within_refl allowed f : keys_within allowed f f.
Proof. intros k Hk; now left. Qed.

Lemma keys_within_trans allowed f1 f2 f3 :
  keys_within allowed f1 f2 -> keys_within allowed f2 f3 -> keys_within allowed f1 f3.
Proof.
  intros H12 H23 k Hk. destruct (H23 k Hk) as [H|H]; auto.
Qed.

Lemma keys_within_weaken allowed allowed' f f' :
  incl allowed allowed' -> keys_within allowed f f' -> keys_within allowed' f f'.
Proof. intros Hi H k Hk. destruct (H k Hk); auto. Qed.

Lemma traditional_method_run (clean : list Py.str) (f : Frame) :
  exists f',
    traditional_method clean f = (Returned tt, f') /\
    trace (env f') = trace (env f) ++ flat_map from_url_events clean /\
    keys_within clean f f'.
Proof.
  unfold traditional_method. revert f.
  induction clean as [|url clean IH]; intros f; simpl.
  - exists f. rewrite app_nil_r. split; [reflexivity|]. split; [reflexivity|].
    apply keys_within_refl.
  - unfold bind at 1 2.
    rewrite (call_run _ f _ _ (extract_content_from_url_run url (env f))).
    unfold store_content at 1; simpl.
    match goal with |- context [for_each clean _ ?g] => destruct (IH g) as (f' & Hrun & Htr & Hk) end.
    exists f'. split; [exact Hrun|]. split.
    + rewrite Htr. simpl. now rewrite <- app_assoc.
    + intros k Hk'. destruct (Hk k Hk') as [H|H]; [|right; now right].
      simpl in H. apply dict_keys_set in H. destruct H as [H| ->]; [now left|].
      right; now left.
Qed.

Lemma fall_back_to_beautifulsoup_run (clean : list Py.str) (f : Frame) :
  exists f',
    fall_back_to_beautifulsoup clean f = (Returned tt, f') /\
    trace (env f') = trace (env f) ++ flat_map from_url_events clean /\
    keys_within clean f f'.
Proof.
  unfold fall_back_to_beautifulsoup. revert f.
  induction clean as [|url clean IH]; intros f; simpl.
  - exists f. rewrite app_nil_r. split; [reflexivity|]. split; [reflexivity|].
    apply keys_within_refl.
  - unfold bind at 1 2.
    rewrite (call_run _ f _ _ (extract_content_from_url_run url (env f))).
    match goal with |- context [is_error ?c] => destruct (is_error c) end; simpl;
      unfold bind, store_content, set_has_valid_content, ret; simpl;
      match goal with |- context [for_each clean _ ?g] => destruct (IH g) as (f' & Hrun & Htr & Hk) end;
      exists f'; (split; [exact Hrun|]); split.
    + rewrite Htr. simpl. now rewrite <- app_assoc.
    + intros k Hk'. destruct (Hk k Hk') as [H|H]; [now left|right; now right].
    + rewrite Htr. simpl. now rewrite <- app_assoc.
    + intros k Hk'. destruct (Hk k Hk') as [H|H]; [|right; now right].
      simpl in H. apply dict_keys_set in H. destruct H as [H| ->]; [now left|].
      right; now left.
Qed.

Lemma retry_individually_run (clean : list Py.str) (f : Frame) :
  exists f',
    retry_individually clean f = (Returned tt, f') /\
    trace (env f') = trace (env f) ++ flat_map langchain_events clean /\
    keys_within clean f f'.
Proof.
  unfold retry_individually. revert f.
  induction clean as [|url clean IH]; intros f; simpl.
  - exists f. rewrite app_nil_r. split; [reflexivity|]. split; [reflexivity|].
    apply keys_within_refl.
  - destruct (extract_content_with_langchain_run url (env f)) as (docs & w' & Hx).
    unfold bind at 1 2, try_except at 1.
    rewrite (call_run _ f _ _ Hx).
    assert (Hdone : forall g : Frame,
      trace (env g) = trace (env f) ++ langchain_events url ->
      keys_within [url] f g ->
      exists f',
        for_each clean
          (fun url0 => try_except
             (docs0 <- call (extract_content_with_langchain url0) ;;
              match docs0 with
              | [] => ret tt
              | doc0 :: _ =>
                  if negb (is_error (page_content doc0))
                  then store_content url0 (page_content doc0) ;; set_has_valid_content true
                  else ret tt
              end) (fun _ => ret tt)) g = (Returned tt, f') /\
        trace (env f') = trace (env f) ++ langchain_events url ++ flat_map langchain_events clean /\
        keys_within (url :: clean) f f').
    { intros g Hg Hkg. destruct (IH g) as (f' & Hrun & Htr & Hk).
      exists f'. split; [exact Hrun|]. split.
      - rewrite Htr, Hg. now rewrite <- app_assoc.
      - eapply keys_within_trans.
        + eapply keys_within_weaken; [|exact Hkg]. intros z [<-|[]]; now left.
        + eapply keys_within_weaken; [|exact Hk]. intros z Hz; now right. }
    destruct docs as [|doc0 docs]; simpl.
    + apply Hdone; [reflexivity|intros k Hk; now left].
    + destruct (is_error (page_content doc0)); simpl.
      * apply Hdone; [reflexivity|intros k Hk; now left].
      * unfold bind, store_content, set_has_valid_content; simpl.
        apply Hdone; [reflexivity|].
        intros k Hk. simpl in Hk. apply dict_keys_set in Hk.
        destruct Hk as [H| ->]; [now left|right; now left].
Qed.

Lemma collect_batch_run (docs : list Document) (f : Frame) :
  exists f',
    collect_batch docs f = (Returned tt, f') /\
    env f' = env f /\
    has_valid_content f' = has_valid_content f || existsb usable docs /\
    keys_within (batch_sources docs) f f' /\
    (existsb usable docs = false -> f' = f).
Proof.
  unfold collect_batch. revert f.
  induction docs as [|doc docs IH]; intros f; simpl.
  - exists f. rewrite orb_false_r. repeat split; auto. apply keys_within_refl.
  - unfold bind at 1. unfold usable at 1 3. unfold is_error at 1.
    destruct (Dict.get (metadata doc) source_key) as [u|]; simpl.
    + destruct (Py.truthy u && negb (Py.startswith (page_content doc) (Py.lit "Error"))) eqn:E.
      * unfold bind, store_content, set_has_valid_content; simpl.
        match goal with |- context [for_each docs _ ?g] => destruct (IH g) as (f' & Hrun & He & Hv & Hk & _) end.
        exists f'. split; [exact Hrun|]. split; [exact He|]. split.
        { rewrite Hv. simpl. unfold is_error. rewrite E. simpl. now rewrite orb_true_r. }
        split; [|intros Hf; unfold is_error in Hf; rewrite E in Hf; discriminate].
        intros k Hk'. destruct (Hk k Hk') as [H|H]; [|right; now right].
        simpl in H. apply dict_keys_set in H. destruct H as [H| ->]; [now left|].
        right; now left.
      * unfold ret. destruct (IH f) as (f' & Hrun & He & Hv & Hk & Hsame).
        exists f'. unfold is_error. rewrite E. simpl. repeat split; auto.
    + unfold ret. destruct (IH f) as (f' & Hrun & He & Hv & Hk & Hsame).
      exists f'. repeat split; auto.
Qed.

(** The LangChain branch: the batch extractor first; when it gave nothing
    usable, WebBaseLoader for every URL; when that gave nothing either,
    the single-page extractor for every URL. No step raises, so the
    handler of the branch is never entered. *)
Lemma process_urls_body_langchain_run (clean : list Py.str) (f : Frame) :
  Py.truthy_list clean = true ->
  exists f' tail,
    process_urls_body clean true f = (Returned tt, f') /\
    trace (env f') =
      trace (env f) ++ html2text_events clean (world (env f)) ++
      (if existsb usable (html2text_result clean (world (env f))) then []
       else flat_map langchain_events clean ++ tail) /\
    (tail = [] \/ tail = flat_map from_url_events clean) /\
    keys_within (batch_sources (html2text_result clean (world (env f))) ++ clean) f f'.
Proof.
  intros Hne. unfold process_urls_body. rewrite Hne.
  change (true && true) with true. cbv iota.
  destruct (extract_content_with_html2text_run clean (env f)) as [w1 Hx].
  set (docs := html2text_result clean (world (env f))) in *.
  unfold try_except at 1, bind at 1.
  rewrite (call_run _ f _ _ Hx).
  unfold bind at 1, set_has_valid_content at 1. cbv beta iota.
  cbn [env contents has_valid_content].
  unfold bind at 1.
  match goal with |- context [collect_batch docs ?g] =>
    destruct (collect_batch_run docs g) as (f2 & Hc & He2 & Hv2 & Hk2 & Hsame) end.
  rewrite Hc.
  unfold bind at 1, get_has_valid_content at 1. rewrite Hv2.
  cbn [env contents has_valid_content orb] in *.
  destruct (existsb usable docs) eqn:Eu; cbn [negb]; cbv iota.
  - (* the batch gave usable content *)
    unfold bind, ret, get_has_valid_content. rewrite Hv2. simpl.
    exists f2, []. split; [reflexivity|]. split.
    { rewrite He2. simpl. now rewrite app_nil_r. }
    split; [now left|].
    eapply keys_within_weaken; [|exact Hk2]. intros z Hz. apply in_or_app; now left.
  - (* nothing usable: one WebBaseLoader call for each URL *)
    rewrite (Hsame eq_refl) in *.
    unfold bind at 1.
    match goal with |- context [retry_individually clean ?g] =>
      destruct (retry_individually_run clean g) as (f3 & Hr & Ht3 & Hk3) end.
    rewrite Hr.
    unfold bind at 1, get_has_valid_content at 1. cbv beta iota.
    destruct (has_valid_content f3); cbn [negb]; cbv beta iota.
    + exists f3, []. split; [reflexivity|]. split.
      { rewrite Ht3. simpl. now rewrite app_nil_r, <- app_assoc. }
      split; [now left|].
      eapply keys_within_weaken; [|exact Hk3]. intros z Hz. apply in_or_app; now right.
    + destruct (fall_back_to_beautifulsoup_run clean f3) as (f4 & Hb & Ht4 & Hk4).
      rewrite Hb.
      exists f4, (flat_map from_url_events clean). split; [reflexivity|]. split.
      { rewrite Ht4, Ht3. simpl. now rewrite <- !app_assoc. }
      split; [now right|].
      eapply keys_within_weaken with (allowed := clean);
        [intros z Hz; apply in_or_app; now right|].
      eapply keys_within_trans; [exact Hk3|exact Hk4].
Qed.

Lemma clean_urls_loop (urls acc : list Py.str) :
  fold_left
    (fun clean_urls url =>
       let url := Py.strip url in
       if Py.truthy url then
         let url :=
           if negb (Py.startswith_any url url_schemes)
           then Py.lit "https://" ++ url
           else url in
         clean_urls ++ [url]
       else clean_urls)
    urls acc
  = acc ++ normalize urls.
Proof.
  unfold normalize. revert acc.
  induction urls as [|url urls IH]; intros acc; simpl.
  - now rewrite app_nil_r.
  - destruct (Py.truthy (Py.strip url)) eqn:E; simpl; rewrite IH; auto.
    rewrite <- app_assoc. simpl. f_equal. f_equal.
    unfold add_scheme, Py.startswith_any, url_schemes. simpl existsb.
    rewrite orb_false_r.
    now destruct (Py.startswith (Py.strip url) (Py.lit "http://")
                  || Py.startswith (Py.strip url) (Py.lit "https://")).
Qed.

Lemma clean_urls_of_normalize (urls : list Py.str) : clean_urls_of urls = normalize urls.
Proof. unfold clean_urls_of. now rewrite clean_urls_loop. Qed.

Lemma flat_map_event_urls {Y} (evs : Y -> list event) (ys : list Y) (allowed : list Py.str) :
  (forall y ev u, In y ys -> In ev (evs y) -> In u (event_urls ev) -> In u allowed) ->
  forall ev u, In ev (flat_map evs ys) -> In u (event_urls ev) -> In u allowed.
Proof.
  intros H ev u Hev Hu. apply in_flat_map in Hev. destruct Hev as (y & Hy & Hev).
  eapply H; eauto.
Qed.

Lemma from_url_events_urls (clean : list Py.str) ev u :
  In ev (flat_map from_url_events clean) -> In u (event_urls ev) -> In u clean.
Proof.
  apply flat_map_event_urls. intros y ev' u' Hy Hev Hu.
  destruct Hev as [<-|[<-|[]]]; simpl in Hu; destruct Hu as [<-|[]]; exact Hy.
Qed.

Lemma langchain_events_urls (clean : list Py.str) ev u :
  In ev (flat_map langchain_events clean) -> In u (event_urls ev) -> In u clean.
Proof.
  apply flat_map_event_urls. intros y ev' u' Hy Hev Hu.
  destruct Hev as [<-|[<-|[]]]; simpl in Hu; destruct Hu as [<-|[]]; exact Hy.
Qed.

Lemma html2text_events_urls (clean : list Py.str) w ev u :
  In ev (html2text_events clean w) -> In u (event_urls ev) -> In u clean.
Proof.
  unfold html2text_events. intros [<-|[<-|Hev]] Hu; simpl in Hu; auto.
  destruct (AsyncHtmlLoader_load clean w) as [[[|d ds]|ex] w1]; simpl in Hev;
    try contradiction.
  destruct Hev as [<-|[]]. contradiction.
Qed.

(** [process_urls] always returns; the events it adds carry only cleaned
    URLs, and the keys it returns are cleaned URLs or sources reported by
    the batch extractor. *)
Lemma process_urls_run (urls : list Py.str) (use_langchain : bool) (e : Env) :
  exists contents e' t,
    process_urls urls use_langchain e = (Returned contents, e') /\
    trace e' = trace e ++ t /\
    (forall ev u, In ev t -> In u (event_urls ev) -> In u (clean_urls_of urls)) /\
    (forall k, In k (Dict.keys contents) ->
       In k (batch_sources (html2text_result (clean_urls_of urls) (world e))) \/
       In k (clean_urls_of urls)).
Proof.
  unfold process_urls. set (clean := clean_urls_of urls).
  set (f0 := {| env := e; contents := Dict.empty; has_valid_content := false |}).
  destruct (use_langchain && Py.truthy_list clean) eqn:E.
  - apply andb_true_iff in E. destruct E as [-> Hne].
    destruct (process_urls_body_langchain_run clean f0 Hne) as (f' & tail & Hrun & Htr & Htail & Hk).
    rewrite Hrun. do 3 eexists. split; [reflexivity|]. split; [exact Htr|]. split.
    + intros ev u Hev Hu. apply in_app_or in Hev. destruct Hev as [Hev|Hev].
      { eapply html2text_events_urls; eauto. }
      destruct (existsb usable _); [contradiction|].
      apply in_app_or in Hev. destruct Hev as [Hev|Hev].
      { eapply langchain_events_urls; eauto. }
      destruct Htail as [-> | ->]; [contradiction|].
      eapply from_url_events_urls; eauto.
    + intros k Hin. destruct (Hk k Hin) as [[]|H]. apply in_app_or in H. exact H.
  - unfold process_urls_body. rewrite E.
    destruct (traditional_method_run clean f0) as (f' & Hrun & Htr & Hk).
    rewrite Hrun. do 3 eexists. split; [reflexivity|]. split; [exact Htr|]. split.
    + apply from_url_events_urls.
    + intros k Hin. destruct (Hk k Hin) as [[]|H]. now right.
Qed.

End OrchestratorFacts.

(* ================================================================== *)
(** ** The claims *)
(* ================================================================== *)

Section Claims.

Context {X : Externals}.

Lemma langchain_pass_trace (clean : list Py.str) :
  forall e,
    trace (snd (langchain_pass clean e)) = trace e ++ flat_map langchain_events clean /\
    map fst (fst (langchain_pass clean e)) = clean.
Proof.
  induction clean as [|url clean IH]; intros e; simpl.
  - now rewrite app_nil_r.
  - destruct (extract_content_with_langchain_run url e) as (docs & w' & ->).
    specialize (IH {| world := w'; trace := trace e ++ langchain_events url |}).
    destruct (langchain_pass clean _) as [results e2]. simpl in *.
    destruct IH as [-> ->]. split; [now rewrite <- app_assoc|reflexivity].
Qed.

Lemma from_url_pass_trace (clean : list Py.str) :
  forall e,
    trace (snd (from_url_pass clean e)) = trace e ++ flat_map from_url_events clean /\
    map fst (fst (from_url_pass clean e)) = clean.
Proof.
  induction clean as [|url clean IH]; intros e; simpl.
  - now rewrite app_nil_r.
  - rewrite extract_content_from_url_run.
    match goal with |- context [from_url_pass clean ?e1] => specialize (IH e1) end.
    destruct (from_url_pass clean _) as [results e2]. simpl in *.
    destruct IH as [-> ->]. split; [now rewrite <- app_assoc|reflexivity].
Qed.

(** The WebBaseLoader loop does what the pass over the URLs says: it
    stores the kept results and raises the flag when there is one. *)
Lemma retry_individually_pass (clean : list Py.str) :
  forall f,
    retry_individually clean f =
    (Returned tt,
     {| env := snd (langchain_pass clean (env f));
        contents := store_langchain_results (fst (langchain_pass clean (env f))) (contents f);
        has_valid_content :=
          has_valid_content f ||
          existsb (fun p => first_doc_valid (snd p)) (fst (langchain_pass clean (env f))) |}).
Proof.
  unfold retry_individually, store_langchain_results.
  induction clean as [|url clean IH]; intros f.
  - destruct f. simpl. unfold ret. now rewrite orb_false_r.
  - cbn [for_each langchain_pass].
    destruct (extract_content_with_langchain_run url (env f)) as (docs & w' & Hx).
    unfold bind at 1, try_except at 1, bind at 1.
    rewrite (call_run _ f _ _ Hx), Hx.
    set (e1 := {| world := w'; trace := trace (env f) ++ langchain_events url |}).
    destruct (langchain_pass clean e1) as [results e2] eqn:Ep.
    cbn [fst snd fold_left existsb first_doc_valid].
    destruct docs as [|doc0 docs].
    + unfold ret. rewrite IH. cbn [env contents has_valid_content]. rewrite Ep.
      cbn [fst snd]. reflexivity.
    + destruct (is_error (page_content doc0)); cbn [negb].
      * unfold ret. rewrite IH. cbn [env contents has_valid_content]. rewrite Ep.
        cbn [fst snd]. reflexivity.
      * unfold bind at 1, store_content at 1, set_has_valid_content at 1.
        rewrite IH. cbn [env contents has_valid_content]. rewrite Ep.
        cbn [fst snd]. now rewrite orb_true_r.
Qed.

(** The BeautifulSoup loop of the LangChain branch, likewise. *)
Lemma fall_back_to_beautifulsoup_pass (clean : list Py.str) :
  forall f,
    fall_back_to_beautifulsoup clean f =
    (Returned tt,
     {| env := snd (from_url_pass clean (env f));
        contents := store_from_url_results (fst (from_url_pass clean (env f))) (contents f);
        has_valid_content :=
          has_valid_content f ||
          existsb (fun p => content_valid (snd p)) (fst (from_url_pass clean (env f))) |}).
Proof.
  unfold fall_back_to_beautifulsoup, store_from_url_results.
  induction clean as [|url clean IH]; intros f.
  - destruct f. simpl. unfold ret. now rewrite orb_false_r.
  - cbn [for_each from_url_pass].
    pose proof (extract_content_from_url_run url (env f)) as Hx.
    unfold bind at 1 2.
    rewrite (call_run _ f _ _ Hx), Hx.
    match goal with |- context [from_url_pass clean ?e1] =>
      destruct (from_url_pass clean e1) as [results e2] eqn:Ep end.
    cbn [fst snd fold_left existsb content_valid].
    destruct (is_error (from_url_result url _)); cbn [negb].
    + unfold ret. rewrite IH. cbn [env contents has_valid_content]. rewrite Ep.
      cbn [fst snd]. reflexivity.
    + unfold bind at 1, store_content at 1, set_has_valid_content at 1.
      rewrite IH. cbn [env contents has_valid_content]. rewrite Ep.
      cbn [fst snd]. now rewrite orb_true_r.
Qed.

(** C2. When the batch structure-preserving extractor yields nothing
    usable for a non-empty list of cleaned URLs, [process_urls] goes on
    like this. It runs [extract_content_with_langchain] on every cleaned
    URL, in order. If one of these results is kept, it returns the kept
    results and calls nothing more. If none is kept, it then runs
    [extract_content_from_url] on every cleaned URL, in order, and
    returns what is kept of these. The events of the run are those of
    the batch call, then those of the first pass, then, in the second
    case, those of the second pass. *)
Theorem fallback_cascade_order (urls : list Py.str) (e : Env)
    (docs : list Document) (e1 : Env) :
  clean_urls_of urls <> [] ->
  extract_content_with_html2text (clean_urls_of urls) e = (Returned docs, e1) ->
  (forall d, In d docs -> usable d = false) ->
  exists stage2 e2,
    langchain_pass (clean_urls_of urls) e1 = (stage2, e2) /\
    map fst stage2 = clean_urls_of urls /\
    trace e1 = trace e ++ html2text_events (clean_urls_of urls) (world e) /\
    trace e2 = trace e1 ++ flat_map langchain_events (clean_urls_of urls) /\
    if existsb (fun p => first_doc_valid (snd p)) stage2
    then
      process_urls urls true e =
      (Returned (store_langchain_results stage2 Dict.empty), e2)
    else
      exists stage3 e3,
        from_url_pass (clean_urls_of urls) e2 = (stage3, e3) /\
        map fst stage3 = clean_urls_of urls /\
        trace e3 = trace e2 ++ flat_map from_url_events (clean_urls_of urls) /\
        process_urls urls true e =
        (Returned (store_from_url_results stage3 Dict.empty), e3).
Proof.
  intros Hne Hbatch Hnone.
  assert (Hu : existsb usable docs = false).
  { destruct (existsb usable docs) eqn:E; auto.
    apply existsb_exists in E. destruct E as (d & Hd & Hud).
    rewrite (Hnone d Hd) in Hud. discriminate. }
  assert (Ht : Py.truthy_list (clean_urls_of urls) = true).
  { destruct (clean_urls_of urls); [congruence|reflexivity]. }
  assert (Htr1 : trace e1 = trace e ++ html2text_events (clean_urls_of urls) (world e)).
  { destruct (extract_content_with_html2text_run (clean_urls_of urls) e) as [w1 Hx].
    rewrite Hx in Hbatch. now injection Hbatch as _ <-. }
  set (clean := clean_urls_of urls) in *.
  destruct (langchain_pass clean e1) as [stage2 e2] eqn:Ep2.
  pose proof (langchain_pass_trace clean e1) as [Htr2 Hk2]. rewrite Ep2 in Htr2, Hk2.
  cbn [fst snd] in Htr2, Hk2.
  exists stage2, e2. split; [reflexivity|]. split; [exact Hk2|].
  split; [exact Htr1|]. split; [exact Htr2|].
  assert (Hrun :
    process_urls urls true e =
    if existsb (fun p => first_doc_valid (snd p)) stage2
    then (Returned (store_langchain_results stage2 Dict.empty), e2)
    else (Returned (store_from_url_results (fst (from_url_pass clean e2))
                      (store_langchain_results stage2 Dict.empty)),
          snd (from_url_pass clean e2))).
  { unfold process_urls, process_urls_body. fold clean. rewrite Ht.
    change (true && true) with true. cbv iota.
    set (f0 := {| env := e; contents := Dict.empty; has_valid_content := false |}).
    unfold try_except at 1, bind at 1.
    rewrite (call_run _ f0 _ _ Hbatch).
    unfold bind at 1, set_has_valid_content at 1. cbv beta iota.
    cbn [env contents has_valid_content].
    unfold bind at 1.
    match goal with |- context [collect_batch docs ?g] =>
      destruct (collect_batch_run docs g) as (f2 & Hc & _ & _ & _ & Hsame) end.
    rewrite Hc, (Hsame Hu).
    unfold bind at 1, get_has_valid_content at 1. cbn [has_valid_content negb].
    cbv beta iota. unfold bind at 1. rewrite retry_individually_pass.
    cbn [env contents has_valid_content]. rewrite Ep2. cbn [fst snd orb].
    unfold bind at 1, get_has_valid_content at 1. cbn [has_valid_content].
    cbv beta iota.
    destruct (existsb (fun p => first_doc_valid (snd p)) stage2); cbn [negb].
    - reflexivity.
    - rewrite fall_back_to_beautifulsoup_pass. reflexivity. }
  rewrite Hrun.
  destruct (existsb (fun p => first_doc_valid (snd p)) stage2) eqn:Ev; [reflexivity|].
  assert (Hempty : store_langchain_results stage2 Dict.empty = Dict.empty).
  { clear - Ev. unfold store_langchain_results. generalize Dict.empty as c.
    induction stage2 as [|[url r] stage2 IH]; intros c; simpl in *; auto.
    apply orb_false_iff in Ev. destruct Ev as [Ev1 Ev2].
    destruct r as [[|doc0 ds]|ex]; simpl in Ev1; auto.
    rewrite Ev1. auto. }
  rewrite Hempty.
  pose proof (from_url_pass_trace clean e2) as [Htr3 Hk3].
  destruct (from_url_pass clean e2) as [stage3 e3]. cbn [fst snd] in *.
  exists stage3, e3. repeat split; auto.
Qed.

(** C3. The batch extractor always returns a non-empty list in which no
    document has fewer than ten characters. When the loader fetched
    documents and the transformer converted them, every converted
    document shorter than ten characters is absent from the result, the
    result is the list of the documents that pass validation, and when
    none passes it is the single "insufficient content" error document. *)
Theorem batch_extractor_validation (urls : list Py.str) (e : Env) :
  (exists docs e',
     extract_content_with_html2text urls e = (Returned docs, e') /\
     docs <> [] /\
     forall d, In d docs -> 10 <= Py.len (page_content d)) /\
  (forall fetched w1 transformed w2,
     AsyncHtmlLoader_load urls (world e) = (Returned fetched, w1) ->
     fetched <> [] ->
     Html2Text_transform fetched w1 = (Returned transformed, w2) ->
     exists docs e',
       extract_content_with_html2text urls e = (Returned docs, e') /\
       (forall d, In d transformed -> Py.len (page_content d) < 10 -> ~ In d docs) /\
       (filter survives_validation transformed <> [] ->
        docs = filter survives_validation transformed) /\
       (filter survives_validation transformed = [] ->
        docs = [batch_error_document urls
                  (Py.lit "All documents had insufficient content")
                  (Py.lit "Insufficient content")])).
Proof.
  destruct (extract_content_with_html2text_run urls e) as [w' Hx].
  assert (Hlen : forall d, In d (html2text_result urls (world e)) ->
                           10 <= Py.len (page_content d)).
  { intros d Hd. unfold html2text_result in Hd.
    assert (Herr : forall reason err d0,
              In d0 [batch_error_document urls reason err] ->
              10 <= Py.len (page_content d0)).
    { intros reason err d0 [<-|[]]. unfold batch_error_document, error_document, Py.len.
      cbn [page_content]. rewrite length_app. simpl. lia. }
    destruct (AsyncHtmlLoader_load urls (world e)) as [[[|f fs]|ex] w1]; eauto.
    destruct (Html2Text_transform (f :: fs) w1) as [[transformed|ex] w2]; eauto.
    destruct (filter survives_validation transformed) as [|v vs] eqn:Ef; eauto.
    rewrite <- Ef in Hd. apply filter_In in Hd. destruct Hd as [_ Hs].
    unfold survives_validation in Hs. apply Nat.leb_le in Hs.
    etransitivity; [exact Hs|apply strip_length]. }
  split.
  - exists (html2text_result urls (world e)). eexists. split; [exact Hx|]. split; auto.
    unfold html2text_result.
    destruct (AsyncHtmlLoader_load urls (world e)) as [[[|f fs]|ex] w1]; try discriminate.
    destruct (Html2Text_transform (f :: fs) w1) as [[transformed|ex] w2]; try discriminate.
    destruct (filter survives_validation transformed); discriminate.
  - intros fetched w1 transformed w2 Hload Hne Htrans.
    exists (html2text_result urls (world e)). eexists. split; [exact Hx|]. split.
    + intros d _ Hshort Hin. apply Hlen in Hin. lia.
    + unfold html2text_result. rewrite Hload.
      destruct fetched as [|f fs]; [congruence|]. rewrite Htrans.
      destruct (filter survives_validation transformed); split; congruence.
Qed.

(** C4. When the page is fetched, the single-page extractor looks at the
    cleaned text: if it is empty or has fewer than ten characters the
    result is the "empty or too short" error message, which every caller
    classifies as a failure; otherwise the result is the cleaned text
    itself. *)
Theorem single_page_output_contract (url raw : Py.str) (e : Env) (w' : World) :
  requests_get_text url (world e) = (Returned raw, w') ->
  exists e',
    extract_content_from_url url e =
      (Returned (if negb (Py.truthy (clean_text raw)) || (Py.len (clean_text raw) <? 10)
                 then too_short_message url
                 else clean_text raw), e') /\
    is_error (too_short_message url) = true.
Proof.
  intros Hget. rewrite extract_content_from_url_run, Hget. cbn [fst snd from_url_result].
  eexists. split; [|reflexivity]. f_equal. f_equal.
  destruct (clean_text raw); reflexivity.
Qed.

(** C5. The cleaned URLs of [process_urls] are the input entries trimmed,
    without those that are blank after trimming, each prefixed with
    "https://" unless it starts with "http://" or "https://"; and every
    URL the run hands to an extractor or to the network is one of these
    cleaned URLs. *)
Theorem normalization_before_fetch (urls : list Py.str) (use_langchain : bool) (e : Env) :
  clean_urls_of urls = normalize urls /\
  exists t,
    trace (snd (process_urls urls use_langchain e)) = trace e ++ t /\
    forall ev u, In ev t -> In u (event_urls ev) -> In u (normalize urls).
Proof.
  split; [apply clean_urls_of_normalize|].
  destruct (process_urls_run urls use_langchain e) as (c & e' & t & Hrun & Htr & Hev & _).
  exists t. rewrite Hrun. split; [exact Htr|].
  rewrite <- clean_urls_of_normalize. exact Hev.
Qed.

Lemma batch_sources_in (docs : list Document) (k : Py.str) :
  In k (batch_sources docs) ->
  exists d, In d docs /\ Dict.get (metadata d) source_key = Some k /\
            is_error (page_content d) = false.
Proof.
  unfold batch_sources. intros H. apply in_flat_map in H. destruct H as (d & Hd & Hk).
  exists d. split; [exact Hd|].
  destruct (Dict.get (metadata d) source_key) as [u|]; [|contradiction].
  destruct (Py.truthy u && negb (Py.startswith (page_content d) (Py.lit "Error"))) eqn:E;
    [|contradiction].
  destruct Hk as [<-|[]]. split; [reflexivity|].
  apply andb_true_iff in E. destruct E as [_ E]. now apply negb_true_iff in E.
Qed.

Lemma batch_error_document_is_error (urls : list Py.str) (reason err : Py.str) :
  is_error (page_content (batch_error_document urls reason err)) = true.
Proof. reflexivity. Qed.



(** C8. Without a HuggingFace token, [create_vector_store] raises the
    "no embeddings service" [ValueError] for every list of documents and
    leaves the environment as it found it: no embedding client was
    constructed and no library or network call was made. *)
Theorem create_vector_store_checks_token_first
    (cfg : Config) (documents : list Document) (e : Env) :
  Py.truthy_opt (HUGGINGFACEHUB_API_TOKEN cfg) = false ->
  create_vector_store cfg documents e = (Raised (ValueError no_embeddings_message), e).
Proof.
  unfold create_vector_store, raise. intros H.
  destruct (HUGGINGFACEHUB_API_TOKEN cfg) as [token|]; [|reflexivity].
  simpl in H. now rewrite H.
Qed.

(** For contrast: with a token the first thing done is the construction
    of the embedding client with that token. *)
Lemma create_vector_store_with_token
    (cfg : Config) (token : Py.str) (documents : list Document) (e : Env) :
  HUGGINGFACEHUB_API_TOKEN cfg = Some token -> Py.truthy token = true ->
  exists t,
    trace (snd (create_vector_store cfg documents e)) =
    trace e ++ Ext_Embeddings_init token embedding_model :: t.
Proof.
  intros Ht Hn. unfold create_vector_store, bind, try_except, ext, raise.
  rewrite Ht, Hn. cbn [negb world trace].
  destruct (Embeddings_init token embedding_model (world e)) as [[emb|ex] w1];
    cbn [world trace snd].
  - destruct (FAISS_from_documents documents emb w1) as [r w2]. cbn [snd trace].
    eexists. now rewrite <- app_assoc.
  - exists []. reflexivity.
Qed.

(** C9. [split_documents] on the empty list returns the empty list; it
    raises nothing and calls nothing. *)
Theorem split_documents_empty (e : Env) :
  split_documents [] e = (Returned [], e).
Proof. unfold split_documents, ret. reflexivity. Qed.

(** For contrast: a non-empty list goes to the text splitter, with chunks
    of 1000 characters overlapping by 200. *)
Lemma split_documents_nonempty (d : Document) (ds : list Document) (e : Env) :
  split_documents (d :: ds) e =
  (fst (text_splitter_split_documents 1000 200 (d :: ds) (world e)),
   {| world := snd (text_splitter_split_documents 1000 200 (d :: ds) (world e));
      trace := trace e ++ [Ext_text_splitter] |}).
Proof.
  unfold split_documents, ext.
  now destruct (text_splitter_split_documents 1000 200 (d :: ds) (world e)).
Qed.

Lemma create_documents_loop (items : list (Py.str * Py.str)) (acc : list Document) :
  fold_left
    (fun documents '(url, content) =>
       if negb (is_error content)
       then documents ++
            [{| page_content := content;
                metadata := Dict.set Dict.empty source_key url |}]
       else documents)
    items acc
  = acc ++
    map (fun '(url, content) =>
           {| page_content := content; metadata := Dict.set Dict.empty source_key url |})
        (filter (fun '(_, content) => negb (is_error content)) items).
Proof.
  revert acc. induction items as [|[url content] items IH]; intros acc; simpl.
  - now rewrite app_nil_r.
  - rewrite IH. destruct (is_error content); simpl; auto. now rewrite <- app_assoc.
Qed.

Lemma create_documents_from_contents_filter (contents : Dict.t) :
  create_documents_from_contents contents =
  map (fun '(url, content) =>
         {| page_content := content; metadata := Dict.set Dict.empty source_key url |})
      (filter (fun '(_, content) => negb (is_error content)) (Dict.items contents)).
Proof. unfold create_documents_from_contents. now rewrite create_documents_loop. Qed.

(** C10. [create_documents_from_contents] builds one document, in order,
    for exactly the entries whose content does not begin with "Error".
    So when a page is fetched and its cleaned text has ten characters or
    more and begins with "Error", [extract_content_from_url] returns that
    text as a success, and no document built from any mapping carries it. *)
Theorem error_prefix_decides_success :
  (forall contents : Dict.t,
     create_documents_from_contents contents =
     map (fun '(url, content) =>
            {| page_content := content; metadata := Dict.set Dict.empty source_key url |})
         (filter (fun '(_, content) => negb (Py.startswith content (Py.lit "Error")))
                 (Dict.items contents))) /\
  (forall (url raw : Py.str) (e : Env) (w' : World),
     requests_get_text url (world e) = (Returned raw, w') ->
     10 <= Py.len (clean_text raw) ->
     Py.startswith (clean_text raw) (Py.lit "Error") = true ->
     (exists e', extract_content_from_url url e = (Returned (clean_text raw), e')) /\
     forall (contents : Dict.t) (d : Document),
       In d (create_documents_from_contents contents) ->
       page_content d <> clean_text raw).
Proof.
  split; [exact create_documents_from_contents_filter|].
  intros url raw e w' Hget Hlen Herr. split.
  - rewrite extract_content_from_url_run, Hget. cbn [fst snd from_url_result].
    apply Nat.ltb_ge in Hlen. rewrite Hlen. eexists; reflexivity.
  - intros contents d Hd Heq.
    rewrite create_documents_from_contents_filter in Hd.
    apply in_map_iff in Hd. destruct Hd as ([u c] & <- & Hin).
    apply filter_In in Hin. destruct Hin as [_ Hok].
    cbn [page_content] in Heq. subst c. unfold is_error in Hok.
    rewrite Herr in Hok. discriminate.
Qed.

Lemma main_without_credentials (cfg : Config) (ui : Interaction) (a : App) :
  Py.truthy_opt (has_credentials cfg) = false ->
  qa_chain (session a) = None ->
  main cfg ui a = (Returned None, a).
Proof.
  intros Hc Hq. unfold main, url_input_section, qa_section, bind, get_session, ret.
  rewrite Hc, andb_false_r. now rewrite Hq.
Qed.

Lemma run_session_without_credentials (cfg : Config) (uis : list Interaction) (a : App) :
  Py.truthy_opt (has_credentials cfg) = false ->
  qa_chain (session a) = None ->
  run_session cfg uis a = a.
Proof.
  intros Hc Hq. unfold run_session.
  induction uis as [|ui uis IH]; simpl; auto.
  now rewrite main_without_credentials.
Qed.

Lemma setup_qa_system_trace (cfg : Config) (vector_store : VectorStore) (e : Env) :
  exists t,
    trace (snd (setup_qa_system cfg vector_store e)) =
      trace e ++ Ext_llm_init (llm_of cfg) :: t /\
    (t = [] \/ t = [Ext_RetrievalQA_from_chain_type]).
Proof.
  unfold setup_qa_system, bind, ext. cbn [world trace].
  destruct (llm_init (llm_of cfg) (world e)) as [[llm|ex] w1]; cbn [snd trace world].
  - destruct (RetrievalQA_from_chain_type llm vector_store 4 w1) as [r w2].
    cbn [snd trace]. exists [Ext_RetrievalQA_from_chain_type].
    split; [now rewrite <- app_assoc|now right].
  - exists []. split; [reflexivity|now left].
Qed.

(** C7. The choice of the chat backend is a function of the configuration
    alone. The Azure client is the one [setup_qa_system] constructs
    exactly when endpoint, deployment name and API key are all set and
    non-empty; otherwise it constructs the OpenAI client, and that
    happens only with an OpenAI key: with neither, [has_credentials] is
    false, and whatever the user does, starting without a chain, no run of
    the application changes the session or the environment, so nothing is
    extracted, no client is constructed and no question is answered. *)
Theorem backend_selection (cfg : Config) :
  Py.truthy_opt (using_azure cfg) =
    Py.truthy_opt (AZURE_OPENAI_ENDPOINT cfg) &&
    Py.truthy_opt (AZURE_OPENAI_DEPLOYMENT_NAME cfg) &&
    Py.truthy_opt (AZURE_OPENAI_API_KEY cfg) /\
  (forall vector_store e, exists t,
     trace (snd (setup_qa_system cfg vector_store e)) =
       trace e ++ Ext_llm_init (llm_of cfg) :: t /\
     (t = [] \/ t = [Ext_RetrievalQA_from_chain_type])) /\
  (Py.truthy_opt (using_azure cfg) = true ->
     Py.truthy_opt (has_credentials cfg) = true /\
     llm_of cfg =
       AzureChatOpenAI (AZURE_OPENAI_DEPLOYMENT_NAME cfg) (AZURE_OPENAI_API_VERSION cfg)
                       (AZURE_OPENAI_ENDPOINT cfg) (AZURE_OPENAI_API_KEY cfg) 0) /\
  (Py.truthy_opt (using_azure cfg) = false ->
   Py.truthy_opt (OPENAI_API_KEY cfg) = true ->
     Py.truthy_opt (has_credentials cfg) = true /\
     llm_of cfg = ChatOpenAI (Py.lit "gpt-3.5-turbo") 0 (OPENAI_API_KEY cfg)) /\
  (Py.truthy_opt (using_azure cfg) = false ->
   Py.truthy_opt (OPENAI_API_KEY cfg) = false ->
     Py.truthy_opt (has_credentials cfg) = false /\
     forall (uis : list Interaction) (a : App),
       qa_chain (session a) = None -> run_session cfg uis a = a).
Proof.
  assert (Hh : Py.truthy_opt (has_credentials cfg) =
               Py.truthy_opt (OPENAI_API_KEY cfg) || Py.truthy_opt (using_azure cfg)).
  { unfold has_credentials, py_or.
    destruct (Py.truthy_opt (OPENAI_API_KEY cfg)) eqn:E; simpl; auto. }
  split; [|split; [|split; [|split]]].
  - unfold using_azure, py_and.
    destruct (Py.truthy_opt (AZURE_OPENAI_API_KEY cfg)) eqn:Ek;
      destruct (Py.truthy_opt (AZURE_OPENAI_ENDPOINT cfg)) eqn:Ee;
      rewrite ?Ek, ?Ee; simpl; rewrite ?Ek, ?andb_true_r, ?andb_false_r; auto.
  - intros vector_store e. apply setup_qa_system_trace.
  - intros Ha. split.
    + rewrite Hh, Ha. apply orb_true_r.
    + unfold llm_of. now rewrite Ha.
  - intros Ha Ho. split.
    + now rewrite Hh, Ho.
    + unfold llm_of. now rewrite Ha.
  - intros Ha Ho. assert (Hc : Py.truthy_opt (has_credentials cfg) = false).
    { now rewrite Hh, Ho, Ha. }
    split; [exact Hc|]. intros uis a Hq.
    now apply run_session_without_credentials.
Qed.

End Claims.

(* ================================================================== *)
(** ** The claims at work in the small world *)
(* ================================================================== *)

#[local] Existing Instance TestWorld.externals.

(** C1. [process_urls] returns [contents], not the [valid_contents] it
    has just computed. With the BeautifulSoup method, one URL that cannot
    be reached and one that can, the mapping returned holds the error
    message as the content of the first URL, while [valid_contents] holds
    the second URL only. *)
Theorem process_urls_returns_error_placeholder :
  process_urls [Py.lit "example.com/a"; Py.lit "https://example.com/b"] false
    (TestWorld.start TestWorld.web) =
  (Returned [(TestWorld.url_a,
              failure_message TestWorld.url_a TestWorld.connection_refused);
             (TestWorld.url_b, TestWorld.text_b)],
   {| world := TestWorld.web;
      trace := from_url_events TestWorld.url_a ++ from_url_events TestWorld.url_b |}) /\
  is_error (failure_message TestWorld.url_a TestWorld.connection_refused) = true /\
  valid_contents_of
    [(TestWorld.url_a, failure_message TestWorld.url_a TestWorld.connection_refused);
     (TestWorld.url_b, TestWorld.text_b)]
  = [(TestWorld.url_b, TestWorld.text_b)].
Proof. repeat split; vm_compute; reflexivity. Qed.

Lemma fallback_cascade_order_witness :
  process_urls [Py.lit "example.com/a"; Py.lit "example.com/c"] true
    (TestWorld.start TestWorld.web) =
  (Returned Dict.empty,
   {| world := TestWorld.web;
      trace :=
        [Call_html2text [TestWorld.url_a; Fakes.url_c];
         Ext_AsyncHtmlLoader_load [TestWorld.url_a; Fakes.url_c];
         Ext_Html2Text_transform;
         Call_langchain TestWorld.url_a; Ext_WebBaseLoader_load TestWorld.url_a;
         Call_langchain Fakes.url_c; Ext_WebBaseLoader_load Fakes.url_c;
         Call_from_url TestWorld.url_a; Ext_requests_get TestWorld.url_a;
         Call_from_url Fakes.url_c; Ext_requests_get Fakes.url_c] |}).
Proof.
  set (urls := [Py.lit "example.com/a"; Py.lit "example.com/c"]).
  set (e := TestWorld.start TestWorld.web).
  set (r := extract_content_with_html2text (clean_urls_of urls) e).
  destruct (@fallback_cascade_order TestWorld.externals urls e
              (match fst r with Returned d => d | Raised _ => [] end) (snd r))
    as (stage2 & e2 & Hp & _ & _ & _ & Hif).
  - discriminate.
  - vm_compute. reflexivity.
  - intros d Hd. vm_compute in Hd. destruct Hd as [<-|[]]. reflexivity.
  - vm_compute in Hp. injection Hp as <- <-. vm_compute in Hif.
    destruct Hif as (stage3 & e3 & Hp3 & _ & _ & Hrun).
    injection Hp3 as <- <-. vm_compute. vm_compute in Hrun. exact Hrun.
Defined.

Lemma batch_extractor_validation_witness :
  exists docs e',
    @extract_content_with_html2text TestWorld.externals
      [TestWorld.url_a; TestWorld.url_b] (TestWorld.start TestWorld.web)
    = (Returned docs, e') /\
    docs = [TestWorld.load_one TestWorld.web TestWorld.url_b].
Proof.
  destruct (@batch_extractor_validation TestWorld.externals
              [TestWorld.url_a; TestWorld.url_b] (TestWorld.start TestWorld.web))
    as [_ H].
  destruct (H (map (TestWorld.load_one TestWorld.web) [TestWorld.url_a; TestWorld.url_b])
              TestWorld.web
              (map (TestWorld.load_one TestWorld.web) [TestWorld.url_a; TestWorld.url_b])
              TestWorld.web eq_refl)
    as (docs & e' & Hrun & _ & Hkeep & _).
  - discriminate.
  - reflexivity.
  - exists docs, e'. split; [exact Hrun|]. apply Hkeep. discriminate.
Defined.

Lemma single_page_output_contract_witness :
  exists e',
    @extract_content_from_url TestWorld.externals TestWorld.url_b
      (TestWorld.start TestWorld.web) = (Returned TestWorld.text_b, e') /\
    is_error (too_short_message TestWorld.url_b) = true.
Proof.
  exact (@single_page_output_contract TestWorld.externals TestWorld.url_b
           TestWorld.text_b (TestWorld.start TestWorld.web) TestWorld.web eq_refl).
Defined.


Lemma backend_selection_witness :
  forall_runs_idle.
Proof.
  unfold forall_runs_idle.
  destruct (@backend_selection TestWorld.externals TestWorld.no_credentials)
    as (_ & _ & _ & _ & H).
  destruct (H eq_refl eq_refl) as [Hc Hidle]. split; [exact Hc|].
  apply Hidle. reflexivity.
Defined.

Lemma create_vector_store_checks_token_first_witness :
  @create_vector_store TestWorld.externals TestWorld.no_credentials
    [{| page_content := TestWorld.text_b; metadata := Dict.empty |}]
    (TestWorld.start TestWorld.web)
  = (Raised (ValueError no_embeddings_message), TestWorld.start TestWorld.web).
Proof.
  apply (@create_vector_store_checks_token_first TestWorld.externals). reflexivity.
Defined.

Lemma error_prefix_decides_success_witness :
  (exists e',
     @extract_content_from_url TestWorld.externals TestWorld.url_errors
       (TestWorld.start TestWorld.web) = (Returned TestWorld.text_errors, e')) /\
  forall (contents : Dict.t) (d : Document),
    In d (create_documents_from_contents contents) ->
    page_content d <> TestWorld.text_errors.
Proof.
  destruct (@error_prefix_decides_success TestWorld.externals) as [_ H].
  apply (H TestWorld.url_errors TestWorld.text_errors
           (TestWorld.start TestWorld.web) TestWorld.web eq_refl).
  - vm_compute. lia.
  - reflexivity.
Defined.

(* ================================================================== *)
(** ** Examples *)
(* ================================================================== *)

Example splitlines_example :
  Py.splitlines (Py.lit "one" ++ [13; 10]%N ++ Py.lit "two" ++ [10; 10]%N ++
                 Py.lit "three" ++ [10]%N)
  = [Py.lit "one"; Py.lit "two"; Py.lit ""; Py.lit "three"].
Proof. reflexivity. Qed.

Example split_example :
  Py.split (Py.lit "a  b   c    d") (Py.lit "  ")
  = [Py.lit "a"; Py.lit "b"; Py.lit " c"; Py.lit ""; Py.lit "d"].
Proof. reflexivity. Qed.

Example strip_example : Py.strip ([9; 32]%N ++ Py.lit "a b" ++ [32; 10]%N) = Py.lit "a b".
Proof. reflexivity. Qed.

Example clean_text_example :
  clean_text (Py.lit "  Title  " ++ [10; 10]%N ++ Py.lit "first    second " ++ [10]%N)
  = Py.lit "Title" ++ [10]%N ++ Py.lit "first" ++ [10]%N ++ Py.lit "second".
Proof. reflexivity. Qed.

Example clean_urls_example :
  clean_urls_of [Py.lit " example.com/a "; Py.lit "  "; Py.lit "http://example.com/c";
                 Py.lit "https://example.com/b"]
  = [TestWorld.url_a; Py.lit "http://example.com/c"; TestWorld.url_b].
Proof. reflexivity. Qed.

(** With the LangChain method the batch extractor drops the page that
    could not be loaded and the mapping holds the other page only. *)
Example process_urls_langchain_example :
  fst (process_urls [Py.lit "example.com/a"; Py.lit "https://example.com/b"] true
         (TestWorld.start TestWorld.web))
  = Returned [(TestWorld.url_b, TestWorld.text_b)].
Proof. vm_compute. reflexivity. Qed.

(** A page whose text begins with "Error" is extracted and then left out
    of the documents. *)
Example error_page_example :
  fst (process_urls [TestWorld.url_errors] false (TestWorld.start TestWorld.web))
  = Returned [(TestWorld.url_errors, TestWorld.text_errors)] /\
  create_documents_from_contents [(TestWorld.url_errors, TestWorld.text_errors)] = [].
Proof. split; vm_compute; reflexivity. Qed.

(* ================================================================== *)
(** * More of the code *)
(* ================================================================== *)

(** The rest of the presentation layer that decides something, and the
    words needed to state what the functions do beyond the claims. *)

(* ================================================================== *)
(** ** websage/web/components.py: the sources of an answer *)
(* ================================================================== *)

(** The dict [sources_by_url] of [qa_section]: URL to list of documents,
    in insertion order. *)
Module Groups.

Definition t := list (Py.str * list Document).

(** [k in g] *)
Fixpoint mem (g : t) (k : Py.str) : bool :=
  match g with
  | [] => false
  | (k', _) :: g' => Py.eqb k' k || mem g' k
  end.

(** [g[k].append(doc)] for a key that is present *)
Fixpoint append (g : t) (k : Py.str) (doc : Document) : t :=
  match g with
  | [] => []
  | (k', docs) :: g' =>
      if Py.eqb k' k then (k', docs ++ [doc]) :: g' else (k', docs) :: append g' k doc
  end.

Definition keys (g : t) : list Py.str := map fst g.

End Groups.

(** [doc.metadata.get("source", "Unknown")] *)
Definition source_or_unknown (doc : Document) : Py.str :=
  match Dict.get (metadata doc) source_key with
  | Some url => url
  | None => Py.lit "Unknown"
  end.

(** The grouping loop of [qa_section]. *)
Definition sources_by_url (source_docs : list Document) : Groups.t :=
  fold_left
    (fun sources doc =>
       let url := source_or_unknown doc in
       let sources := if negb (Groups.mem sources url) then sources ++ [(url, [])]
                      else sources in
       Groups.append sources url doc)
    source_docs [].

(* ================================================================== *)
(** ** app.py and components.py: warnings and footer *)
(* ================================================================== *)

Inductive warning :=
| No_API_key_found
| Deployment_name_missing
| Endpoint_missing.

(** The credential check at the top of [main]. *)
Definition credential_warning (cfg : Config) : option warning :=
  if negb (Py.truthy_opt (has_credentials cfg)) then
    if negb (Py.truthy_opt (OPENAI_API_KEY cfg)) &&
       negb (Py.truthy_opt (AZURE_OPENAI_API_KEY cfg))
    then Some No_API_key_found
    else if Py.truthy_opt (using_azure cfg) &&
            negb (Py.truthy_opt (AZURE_OPENAI_DEPLOYMENT_NAME cfg))
    then Some Deployment_name_missing
    else if Py.truthy_opt (using_azure cfg) &&
            negb (Py.truthy_opt (AZURE_OPENAI_ENDPOINT cfg))
    then Some Endpoint_missing
    else None
  else None.

(** [show_footer(using_azure, openai_api_key)]: the line it writes. *)
Definition api_info (using_azure openai_api_key : option Py.str) : Py.str :=
  if Py.truthy_opt using_azure then Py.lit "Using Azure OpenAI API"
  else if Py.truthy_opt openai_api_key then Py.lit "Using OpenAI API"
  else Py.lit "No API configured".

Definition show_footer (using_azure openai_api_key : option Py.str) : Py.str :=
  Py.lit "Built with Streamlit, LangChain, and " ++ api_info using_azure openai_api_key.

(** The footer as [main] calls it. *)
Definition footer (cfg : Config) : Py.str :=
  show_footer (using_azure cfg) (OPENAI_API_KEY cfg).

(* ================================================================== *)
(** ** More vocabulary *)
(* ================================================================== *)

(** No character of the string is a line boundary. *)
Definition no_linebreak (s : Py.str) : bool :=
  forallb (fun c => negb (Py.islinebreak c)) s.

(** The separator occurs nowhere in the string. *)
Fixpoint sep_free (sep s : Py.str) : bool :=
  match s with
  | [] => true
  | _ :: s' => negb (Py.startswith s sep) && sep_free sep s'
  end.

(** The separator does not occur at any of the first [n] positions. *)
Fixpoint free_upto (sep : Py.str) (n : nat) (s : Py.str) : bool :=
  match n, s with
  | S n', _ :: s' => negb (Py.startswith s sep) && free_upto sep n' s'
  | _, _ => true
  end.

Definition two_spaces : Py.str := Py.lit "  ".

(** A line of cleaned text: not empty, no whitespace at either end, no
    line boundary and no two spaces in a row inside. *)
Definition clean_line (s : Py.str) : Prop :=
  s <> [] /\ trimmed s /\ no_linebreak s = true /\ sep_free two_spaces s = true.

(** No entry of the mapping is an error message. *)
Definition no_error_entry (contents : Dict.t) : Prop :=
  forall k v, In (k, v) contents -> is_error v = false.

(** [m] keeps the property [I] of the state, however it ends. *)
Definition preserves {S A} (I : S -> Prop) (m : M S A) : Prop :=
  forall s, I s -> I (snd (m s)).

(** [m] never raises. *)
Definition returns {S A} (m : M S A) : Prop :=
  forall s, exists a, fst (m s) = Returned a.

(** [m] always raises. *)
Definition always_raises {S A} (m : M S A) : Prop :=
  forall s, exists ex, fst (m s) = Raised ex.

(** A result of the single-page extractor: an error message, or a text
    of ten characters or more. *)
Definition error_or_long (v : Py.str) : Prop :=
  is_error v = true \/ 10 <= Py.len v.

(** What the grouping loop has built after the documents [docs]. *)
Definition grouped (docs : list Document) (g : Groups.t) : Prop :=
  NoDup (Groups.keys g) /\
  (forall u ds, In (u, ds) g ->
     ds <> [] /\ ds = filter (fun d => Py.eqb (source_or_unknown d) u) docs) /\
  (forall d, In d docs -> In (source_or_unknown d) (Groups.keys g)).

(* ================================================================== *)
(** ** More of the small world *)
(* ================================================================== *)

Module Demo.

Definition with_credentials : Config :=
  {| OPENAI_API_KEY := Some (Py.lit "sk-demo"); AZURE_OPENAI_API_KEY := None;
     AZURE_OPENAI_ENDPOINT := None; AZURE_OPENAI_API_VERSION := None;
     AZURE_OPENAI_DEPLOYMENT_NAME := None;
     HUGGINGFACEHUB_API_TOKEN := Some (Py.lit "hf-demo") |}.

Definition without_token : Config :=
  {| OPENAI_API_KEY := Some (Py.lit "sk-demo"); AZURE_OPENAI_API_KEY := None;
     AZURE_OPENAI_ENDPOINT := None; AZURE_OPENAI_API_VERSION := None;
     AZURE_OPENAI_DEPLOYMENT_NAME := None; HUGGINGFACEHUB_API_TOKEN := None |}.

Definition azure_without_endpoint : Config :=
  {| OPENAI_API_KEY := None; AZURE_OPENAI_API_KEY := Some (Py.lit "azure-demo");
     AZURE_OPENAI_ENDPOINT := None; AZURE_OPENAI_API_VERSION := None;
     AZURE_OPENAI_DEPLOYMENT_NAME := Some (Py.lit "chat");
     HUGGINGFACEHUB_API_TOKEN := Some (Py.lit "hf-demo") |}.

Definition unauthorized : exn := Exception (Py.lit "401 Unauthorized").

(** The small world with an embedding service that refuses the token. *)
Definition refusing_embeddings : Externals :=
  {| World := Dict.t;
     Embeddings := Py.str;
     VectorStore := list Document;
     LLM := llm_config;
     QAChain := llm_config * list Document;
     AsyncHtmlLoader_load := @AsyncHtmlLoader_load TestWorld.externals;
     Html2Text_transform := @Html2Text_transform TestWorld.externals;
     WebBaseLoader_load := @WebBaseLoader_load TestWorld.externals;
     requests_get_text := @requests_get_text TestWorld.externals;
     text_splitter_split_documents := @text_splitter_split_documents TestWorld.externals;
     Embeddings_init := fun _ _ web => (Raised unauthorized, web);
     FAISS_from_documents := @FAISS_from_documents TestWorld.externals;
     llm_init := @llm_init TestWorld.externals;
     RetrievalQA_from_chain_type := @RetrievalQA_from_chain_type TestWorld.externals;
     qa_chain_call := @qa_chain_call TestWorld.externals |}.

(** The mapping of the run in which page a could not be reached. *)
Definition partial_contents : Dict.t :=
  [(TestWorld.url_a, failure_message TestWorld.url_a TestWorld.connection_refused);
   (TestWorld.url_b, TestWorld.text_b)].

Definition failed_contents : Dict.t :=
  [(TestWorld.url_a, failure_message TestWorld.url_a TestWorld.connection_refused)].

Definition old_chain : @QAChain TestWorld.externals :=
  (ChatOpenAI (Py.lit "gpt-3.5-turbo") 0 (Some (Py.lit "sk-demo")), []).

Definition app_with_chain : @App TestWorld.externals :=
  @mkApp TestWorld.externals (TestWorld.start TestWorld.web)
    (@mkSession TestWorld.externals Dict.empty (Some old_chain) [] []).

(** The user asks for a page that cannot be reached. *)
Definition unlucky_user : Interaction :=
  {| urls_input := Py.lit "example.com/a"; method := BeautifulSoup;
     extract_button := true; question := Py.lit ""; ask_button := false |}.

End Demo.

#[local] Remove Hints TestWorld.externals : typeclass_instances.

(* ================================================================== *)
(** ** More facts about strings *)
(* ================================================================== *)

Lemma startswith_app_l (s t p : Py.str) :
  Py.startswith s p = true -> Py.startswith (s ++ t) p = true.
Proof.
  revert p; induction s as [|c s IH]; intros [|y p]; simpl; intros H; auto;
    try discriminate.
  - now destruct t.
  - apply andb_true_iff in H. destruct H as [H1 H2]. rewrite H1. simpl. auto.
Qed.

Lemma sep_free_app_r (sep a b : Py.str) : sep_free sep (a ++ b) = true -> sep_free sep b = true.
Proof.
  induction a as [|c a IH]; simpl; auto.
  rewrite andb_true_iff. intros [_ H]; auto.
Qed.

Lemma sep_free_app_l (sep a b : Py.str) : sep_free sep (a ++ b) = true -> sep_free sep a = true.
Proof.
  induction a as [|c a IH]; simpl; auto.
  rewrite !andb_true_iff, !negb_true_iff. intros [H1 H2]. split; auto.
  destruct (Py.startswith (c :: a) sep) eqn:E; auto.
  apply (startswith_app_l _ b) in E. simpl in E. congruence.
Qed.

Lemma free_upto_sep_free (sep p s : Py.str) :
  free_upto sep (List.length p) (p ++ s) = true -> sep_free sep p = true.
Proof.
  induction p as [|c p IH]; simpl; auto.
  rewrite !andb_true_iff, !negb_true_iff. intros [H1 H2]. split; auto.
  destruct (Py.startswith (c :: p) sep) eqn:E; auto.
  apply (startswith_app_l _ s) in E. simpl in E. congruence.
Qed.

Lemma free_upto_snoc (sep p : Py.str) (c : N) (rest : Py.str) :
  free_upto sep (List.length p) (p ++ c :: rest) = true ->
  Py.startswith (c :: rest) sep = false ->
  free_upto sep (List.length (p ++ [c])) ((p ++ [c]) ++ rest) = true.
Proof.
  intros H Hc. rewrite <- app_assoc. simpl app.
  induction p as [|x p IH]; simpl in *.
  - now rewrite Hc.
  - apply andb_true_iff in H. destruct H as [H1 H2]. rewrite H1. simpl. auto.
Qed.

Lemma split_from_cons (sep : Py.str) (skip : nat) (cur : Py.str) (c : N) (rest : Py.str) :
  Py.split_from sep skip cur (c :: rest) =
  match skip with
  | S k => Py.split_from sep k cur rest
  | O =>
      if Py.startswith (c :: rest) sep
      then rev cur :: Py.split_from sep (Py.len sep - 1) [] rest
      else Py.split_from sep 0 (c :: cur) rest
  end.
Proof. reflexivity. Qed.

(** The pieces of [split] do not contain the separator. *)
Lemma split_from_sep_free (sep : Py.str) (s : Py.str) :
  forall (skip : nat) (cur : Py.str),
    (skip = 0 \/ cur = []) ->
    free_upto sep (List.length cur) (rev cur ++ s) = true ->
    Forall (fun piece => sep_free sep piece = true) (Py.split_from sep skip cur s).
Proof.
  induction s as [|c rest IH]; intros skip cur Hskip Hfree;
    [simpl|rewrite split_from_cons].
  - constructor; [|constructor].
    rewrite <- length_rev in Hfree. now apply free_upto_sep_free in Hfree.
  - destruct skip as [|k].
    + destruct (Py.startswith (c :: rest) sep) eqn:E.
      * constructor.
        { rewrite <- length_rev in Hfree. now apply free_upto_sep_free in Hfree. }
        apply IH; [now right|reflexivity].
      * apply IH; [now left|].
        replace (List.length (c :: cur)) with (List.length (rev cur ++ [c]))
          by (rewrite length_app, length_rev; simpl; lia).
        simpl rev. apply free_upto_snoc; [now rewrite length_rev|exact E].
    + destruct Hskip as [Hk| ->]; [discriminate|]. apply IH; [now right|reflexivity].
Qed.

Lemma split_sep_free (s sep : Py.str) :
  Forall (fun piece => sep_free sep piece = true) (Py.split s sep).
Proof. apply split_from_sep_free; [now left|reflexivity]. Qed.

Lemma forallb_rev_eq {A} (P : A -> bool) (l : list A) : forallb P (rev l) = forallb P l.
Proof.
  induction l as [|x l IH]; simpl; auto.
  rewrite forallb_app, IH. simpl. rewrite andb_true_r. apply andb_comm.
Qed.

(** The pieces of [split] are made of characters of the string. *)
Lemma split_from_forallb (P : N -> bool) (sep : Py.str) (s : Py.str) :
  forall (skip : nat) (cur : Py.str),
    forallb P cur = true -> forallb P s = true ->
    Forall (fun piece => forallb P piece = true) (Py.split_from sep skip cur s).
Proof.
  induction s as [|c rest IH]; intros skip cur Hcur Hs;
    [simpl|rewrite split_from_cons].
  - constructor; [|constructor]. now rewrite forallb_rev_eq.
  - simpl in Hs. apply andb_true_iff in Hs. destruct Hs as [Hc Hrest].
    destruct skip as [|k]; [|now apply IH].
    destruct (Py.startswith (c :: rest) sep).
    + constructor; [now rewrite forallb_rev_eq|]. now apply IH.
    + apply IH; auto. simpl. now rewrite Hc.
Qed.

(** A string without the separator is its own single piece. *)
Lemma split_from_free (sep : Py.str) (s : Py.str) :
  forall cur, sep_free sep s = true -> Py.split_from sep 0 cur s = [rev cur ++ s].
Proof.
  induction s as [|c rest IH]; intros cur H; [simpl|rewrite split_from_cons].
  - now rewrite app_nil_r.
  - cbn [sep_free] in H. apply andb_true_iff in H. destruct H as [H1 H2].
    apply negb_true_iff in H1. rewrite H1, IH by exact H2.
    simpl. now rewrite <- app_assoc.
Qed.

Lemma splitlines_from_no_linebreak (n : nat) :
  forall (s cur : Py.str),
    List.length s <= n -> no_linebreak cur = true ->
    Forall (fun line => no_linebreak line = true) (Py.splitlines_from cur s).
Proof.
  unfold no_linebreak.
  induction n as [|n IH]; intros [|c rest] cur Hlen Hcur; simpl in *; try lia.
  - destruct cur; repeat constructor. now rewrite forallb_rev_eq.
  - destruct cur; repeat constructor. now rewrite forallb_rev_eq.
  - destruct (Py.islinebreak c) eqn:E.
    + constructor; [now rewrite forallb_rev_eq|].
      destruct rest as [|c' rest']; [constructor|].
      destruct ((c =? 13)%N && (c' =? 10)%N); apply IH; simpl in *; auto; lia.
    + apply IH; [lia|]. simpl. now rewrite E.
Qed.

Lemma splitlines_no_linebreak (s : Py.str) :
  Forall (fun line => no_linebreak line = true) (Py.splitlines s).
Proof. now apply (splitlines_from_no_linebreak (List.length s)). Qed.

Lemma splitlines_from_line (line rest cur : Py.str) :
  no_linebreak line = true ->
  Py.splitlines_from cur (line ++ rest) = Py.splitlines_from (rev line ++ cur) rest.
Proof.
  unfold no_linebreak. revert cur.
  induction line as [|c line IH]; intros cur H; simpl in *; auto.
  apply andb_true_iff in H. destruct H as [Hc Hl]. apply negb_true_iff in Hc.
  rewrite Hc, IH by exact Hl. now rewrite <- app_assoc.
Qed.

Lemma splitlines_from_lf (cur rest : Py.str) :
  Py.splitlines_from cur (10%N :: rest) = rev cur :: Py.splitlines_from [] rest.
Proof. simpl. now destruct rest. Qed.

(** Lines joined by line feeds split back into the same lines. *)
Lemma splitlines_join (lines : list Py.str) :
  Forall (fun line => line <> [] /\ no_linebreak line = true) lines ->
  Py.splitlines (Py.join [10%N] lines) = lines.
Proof.
  unfold Py.splitlines. destruct lines as [|c cs]; [reflexivity|]. revert c.
  induction cs as [|c' cs IH]; intros c H.
  - inversion H as [|? ? [Hne Hnl] _]; subst. simpl Py.join.
    rewrite <- (app_nil_r c) at 1. rewrite splitlines_from_line by exact Hnl.
    rewrite app_nil_r. simpl.
    destruct (rev c) eqn:Er.
    + exfalso. apply Hne. rewrite <- (rev_involutive c), Er. reflexivity.
    + now rewrite <- Er, rev_involutive.
  - inversion H as [|? ? [Hne Hnl] Hrest]; subst.
    change (Py.join [10%N] (c :: c' :: cs)) with (c ++ [10%N] ++ Py.join [10%N] (c' :: cs)).
    rewrite splitlines_from_line by exact Hnl. cbn [app].
    rewrite splitlines_from_lf, app_nil_r, rev_involutive.
    f_equal. now apply IH.
Qed.

(** [strip] keeps a stretch of the string: what it removes is at the ends. *)
Lemma strip_factor (s : Py.str) : exists a b, s = a ++ Py.strip s ++ b.
Proof.
  unfold Py.strip, Py.rstrip.
  destruct (lstrip_suffix s) as [a Ha].
  destruct (lstrip_suffix (rev (Py.lstrip s))) as [q Hq].
  exists a, (rev q). rewrite <- rev_app_distr, <- Hq, rev_involutive. exact Ha.
Qed.

Lemma strip_no_linebreak (s : Py.str) :
  no_linebreak s = true -> no_linebreak (Py.strip s) = true.
Proof.
  unfold no_linebreak. destruct (strip_factor s) as (a & b & E). intros H.
  rewrite E, !forallb_app in H.
  apply andb_true_iff in H. destruct H as [_ H].
  apply andb_true_iff in H. now destruct H.
Qed.

Lemma strip_sep_free (sep s : Py.str) :
  sep_free sep s = true -> sep_free sep (Py.strip s) = true.
Proof.
  destruct (strip_factor s) as (a & b & E). intros H. rewrite E in H.
  apply sep_free_app_r in H. now apply sep_free_app_l in H.
Qed.

(** Every line of the cleaned text is a clean line. *)
Lemma clean_text_lines (text : Py.str) :
  exists lines,
    clean_text text = Py.join [10%N] lines /\ Forall clean_line lines.
Proof.
  unfold clean_text. eexists. split; [reflexivity|].
  apply Forall_forall. intros c Hc.
  apply filter_In in Hc. destruct Hc as [Hin Ht].
  apply in_flat_map in Hin. destruct Hin as (line & Hline & Hin).
  apply in_map_iff in Hin. destruct Hin as (piece & <- & Hpiece).
  apply in_map_iff in Hline. destruct Hline as (raw & <- & Hraw).
  pose proof (splitlines_no_linebreak text) as Hnl. rewrite Forall_forall in Hnl.
  pose proof (strip_no_linebreak _ (Hnl _ Hraw)) as Hline.
  split; [intros E; rewrite E in Ht; discriminate|].
  split; [apply trimmed_strip|]. split.
  - apply strip_no_linebreak.
    pose proof (split_from_forallb (fun c => negb (Py.islinebreak c)) (Py.lit "  ")
                  (Py.strip raw) 0 [] eq_refl Hline) as Hp.
    rewrite Forall_forall in Hp. now apply Hp.
  - apply strip_sep_free.
    pose proof (split_sep_free (Py.strip raw) (Py.lit "  ")) as Hp.
    rewrite Forall_forall in Hp. now apply Hp.
Qed.

Lemma clean_text_of_clean_lines (lines : list Py.str) :
  Forall clean_line lines -> clean_text (Py.join [10%N] lines) = Py.join [10%N] lines.
Proof.
  intros H. unfold clean_text. rewrite splitlines_join.
  2:{ eapply Forall_impl; [|exact H]. intros l (Hne & _ & Hnl & _). now split. }
  f_equal. induction H as [|l ls (Hne & Htr & Hnl & Hsf) _ IH]; [reflexivity|].
  simpl map. simpl flat_map. rewrite (strip_trimmed _ Htr).
  unfold Py.split at 1. rewrite split_from_free by exact Hsf.
  simpl. rewrite (strip_trimmed _ Htr).
  destruct l as [|c l]; [congruence|]. simpl. f_equal. exact IH.
Qed.

(** X1. Every line of the cleaned text is a clean line: the text has no blank
    line, no line with whitespace at an end and no two spaces in a row. *)
Theorem clean_text_lines_are_clean (text : Py.str) :
  Forall clean_line (Py.splitlines (clean_text text)) /\
  Py.join [10%N] (Py.splitlines (clean_text text)) = clean_text text.
Proof.
  destruct (clean_text_lines text) as (lines & E & H).
  rewrite E, splitlines_join; [now split|].
  eapply Forall_impl; [|exact H]. intros l (Hne & _ & Hnl & _). now split.
Qed.

(** X2. Cleaning a cleaned text changes nothing. *)
Theorem clean_text_idempotent (text : Py.str) :
  clean_text (clean_text text) = clean_text text.
Proof.
  destruct (clean_text_lines text) as (lines & E & H).
  rewrite E. now apply clean_text_of_clean_lines.
Qed.

(* ================================================================== *)
(** ** A small program logic *)
(* ================================================================== *)

Section Logic.

Context {S : Type}.

Lemma preserves_ret {A} (I : S -> Prop) (a : A) : preserves I (ret a).
Proof. intros s H; exact H. Qed.

Lemma preserves_bind {A B} (I : S -> Prop) (m : M S A) (k : A -> M S B) :
  preserves I m -> (forall a, preserves I (k a)) -> preserves I (bind m k).
Proof.
  intros Hm Hk s Hs. unfold bind. specialize (Hm s Hs).
  destruct (m s) as [[a|ex] s']; simpl in *; auto. now apply Hk.
Qed.

Lemma preserves_bind_raises {A B} (I : S -> Prop) (m : M S A) (k : A -> M S B) :
  preserves I m -> always_raises m -> preserves I (bind m k).
Proof.
  intros Hm Hr s Hs. unfold bind. specialize (Hm s Hs). destruct (Hr s) as [ex Hex].
  destruct (m s) as [[a|ex'] s']; simpl in *; auto. discriminate.
Qed.

Lemma preserves_try_except {A} (I : S -> Prop) (m : M S A) (h : exn -> M S A) :
  preserves I m -> (forall ex, preserves I (h ex)) -> preserves I (try_except m h).
Proof.
  intros Hm Hh s Hs. unfold try_except. specialize (Hm s Hs).
  destruct (m s) as [[a|ex] s']; simpl in *; auto. now apply Hh.
Qed.

Lemma preserves_try_returns {A} (I : S -> Prop) (m : M S A) (h : exn -> M S A) :
  preserves I m -> returns m -> preserves I (try_except m h).
Proof.
  intros Hm Hr s Hs. unfold try_except. specialize (Hm s Hs). destruct (Hr s) as [a Ha].
  destruct (m s) as [[a'|ex] s']; simpl in *; auto. discriminate.
Qed.

Lemma preserves_for_each {Y} (I : S -> Prop) (ys : list Y) (body : Y -> M S unit) :
  (forall y, In y ys -> preserves I (body y)) -> preserves I (for_each ys body).
Proof.
  induction ys as [|y ys IH]; intros H; simpl.
  - apply preserves_ret.
  - apply preserves_bind; [apply H; now left|]. intros _. apply IH.
    intros y' Hy'. apply H. now right.
Qed.

Lemma returns_ret {A} (a : A) : returns (S := S) (ret a).
Proof. intros s. now exists a. Qed.

Lemma returns_bind {A B} (m : M S A) (k : A -> M S B) :
  returns m -> (forall a, returns (k a)) -> returns (bind m k).
Proof.
  intros Hm Hk s. unfold bind. destruct (Hm s) as [a Ha].
  destruct (m s) as [[a'|ex] s']; simpl in *; [apply Hk|discriminate].
Qed.

Lemma returns_try_except {A} (m : M S A) (h : exn -> M S A) :
  (forall ex, returns (h ex)) -> returns (try_except m h).
Proof.
  intros Hh s. unfold try_except.
  destruct (m s) as [[a|ex] s']; simpl; [now exists a|apply Hh].
Qed.

Lemma returns_for_each {Y} (ys : list Y) (body : Y -> M S unit) :
  (forall y, returns (body y)) -> returns (for_each ys body).
Proof.
  intros H. induction ys as [|y ys IH]; simpl.
  - apply returns_ret.
  - apply returns_bind; auto.
Qed.

End Logic.

(* ================================================================== *)
(** ** More facts about the orchestrator *)
(* ================================================================== *)

Section OrchestratorInvariants.

Context {X : Externals}.

Lemma returns_call_from_url (url : Py.str) : returns (call (extract_content_from_url url)).
Proof.
  intros f. unfold call. rewrite extract_content_from_url_run. simpl. eauto.
Qed.

Lemma returns_call_langchain (url : Py.str) :
  returns (call (extract_content_with_langchain url)).
Proof.
  intros f. unfold call.
  destruct (extract_content_with_langchain_run url (env f)) as (docs & w' & ->).
  simpl. eauto.
Qed.

Lemma returns_call_html2text (urls : list Py.str) :
  returns (call (extract_content_with_html2text urls)).
Proof.
  intros f. unfold call.
  destruct (extract_content_with_html2text_run urls (env f)) as (w' & ->).
  simpl. eauto.
Qed.

Lemma preserves_call {A} (P : Dict.t -> Prop) (m : M Env A) :
  preserves (fun f => P (contents f)) (call m).
Proof. intros f H. unfold call. now destruct (m (env f)). Qed.

Lemma preserves_set_has_valid_content (P : Dict.t -> Prop) (b : bool) :
  preserves (fun f => P (contents f)) (set_has_valid_content b).
Proof. intros f H; exact H. Qed.

Lemma preserves_get_has_valid_content (P : Dict.t -> Prop) :
  preserves (fun f => P (contents f)) get_has_valid_content.
Proof. intros f H; exact H. Qed.

Lemma no_error_entry_set (c : Dict.t) (k v : Py.str) :
  no_error_entry c -> is_error v = false -> no_error_entry (Dict.set c k v).
Proof.
  intros Hc Hv k' v' Hin. apply dict_set_in in Hin. destruct Hin as [Hin| ->]; eauto.
Qed.

Lemma preserves_store_valid (url content : Py.str) :
  is_error content = false ->
  preserves (fun f => no_error_entry (contents f))
            (store_content url content ;; set_has_valid_content true).
Proof. intros Hv f H. simpl. now apply no_error_entry_set. Qed.

Lemma collect_batch_no_error (docs : list Document) :
  preserves (fun f => no_error_entry (contents f)) (collect_batch docs).
Proof.
  apply preserves_for_each. intros doc _.
  cbv zeta. destruct (Dict.get (metadata doc) source_key) as [url|];
    [|apply preserves_ret].
  destruct (Py.truthy url); destruct (is_error (page_content doc)) eqn:E;
    cbn [andb negb]; try apply preserves_ret.
  now apply preserves_store_valid.
Qed.

Lemma retry_individually_no_error (clean : list Py.str) :
  preserves (fun f => no_error_entry (contents f)) (retry_individually clean).
Proof.
  apply preserves_for_each. intros url _.
  apply preserves_try_except; [|intros ex; apply preserves_ret].
  apply preserves_bind; [apply (preserves_call no_error_entry)|].
  intros [|doc0 docs]; [apply preserves_ret|].
  destruct (is_error (page_content doc0)) eqn:E; cbn [negb];
    [apply preserves_ret|now apply preserves_store_valid].
Qed.

Lemma fall_back_to_beautifulsoup_no_error (clean : list Py.str) :
  preserves (fun f => no_error_entry (contents f)) (fall_back_to_beautifulsoup clean).
Proof.
  apply preserves_for_each. intros url _.
  apply preserves_bind; [apply (preserves_call no_error_entry)|].
  intros content. destruct (is_error content) eqn:E; cbn [negb];
    [apply preserves_ret|now apply preserves_store_valid].
Qed.

Lemma returns_store_valid (url content : Py.str) :
  returns (store_content url content ;; set_has_valid_content true).
Proof. intros f. simpl. eauto. Qed.

Lemma collect_batch_returns (docs : list Document) : returns (collect_batch docs).
Proof.
  apply returns_for_each. intros doc.
  cbv zeta. destruct (Dict.get (metadata doc) source_key) as [url|];
    [|apply returns_ret].
  destruct (Py.truthy url && negb (is_error (page_content doc)));
    [apply returns_store_valid|apply returns_ret].
Qed.

Lemma retry_individually_returns (clean : list Py.str) : returns (retry_individually clean).
Proof.
  apply returns_for_each. intros url. apply returns_try_except.
  intros ex. apply returns_ret.
Qed.

Lemma fall_back_to_beautifulsoup_returns (clean : list Py.str) :
  returns (fall_back_to_beautifulsoup clean).
Proof.
  apply returns_for_each. intros url.
  apply returns_bind; [apply returns_call_from_url|]. intros content.
  destruct (negb (is_error content)); [apply returns_store_valid|apply returns_ret].
Qed.

(** The LangChain branch keeps the mapping free of error messages. *)
Lemma process_urls_body_langchain_no_error (clean : list Py.str) :
  preserves (fun f => no_error_entry (contents f)) (process_urls_body clean true).
Proof.
  unfold process_urls_body. destruct clean as [|u clean'] eqn:Ec.
  - simpl. unfold traditional_method. simpl. apply preserves_ret.
  - rewrite <- Ec. replace (true && Py.truthy_list clean) with true by now rewrite Ec.
    apply preserves_try_returns.
    + apply preserves_bind; [apply (preserves_call no_error_entry)|]. intros docs.
      apply preserves_bind; [apply (preserves_set_has_valid_content no_error_entry)|].
      intros _. apply preserves_bind; [apply collect_batch_no_error|]. intros _.
      apply preserves_bind; [apply (preserves_get_has_valid_content no_error_entry)|].
      intros hv. apply preserves_bind.
      { destruct (negb hv); [apply retry_individually_no_error|apply preserves_ret]. }
      intros _. apply preserves_bind; [apply (preserves_get_has_valid_content no_error_entry)|].
      intros hv'. destruct (negb hv');
        [apply fall_back_to_beautifulsoup_no_error|apply preserves_ret].
    + apply returns_bind; [apply returns_call_html2text|]. intros docs.
      apply returns_bind; [intros f; simpl; eauto|]. intros _.
      apply returns_bind; [apply collect_batch_returns|]. intros _.
      apply returns_bind; [intros f; simpl; eauto|]. intros hv.
      apply returns_bind.
      { destruct (negb hv); [apply retry_individually_returns|apply returns_ret]. }
      intros _. apply returns_bind; [intros f; simpl; eauto|]. intros hv'.
      destruct (negb hv'); [apply fall_back_to_beautifulsoup_returns|apply returns_ret].
Qed.

(** X8. With the LangChain method no entry of the mapping [process_urls]
    returns is an error message. *)
Theorem process_urls_langchain_no_error_entry (urls : list Py.str) (e : Env) :
  exists contents e',
    process_urls urls true e = (Returned contents, e') /\
    no_error_entry contents.
Proof.
  destruct (process_urls_run urls true e) as (c & e' & t & Hrun & _).
  exists c, e'. split; [exact Hrun|].
  pose proof (process_urls_body_langchain_no_error (clean_urls_of urls)
                {| env := e; contents := Dict.empty; has_valid_content := false |})
    as Hp.
  unfold process_urls in Hrun.
  destruct (process_urls_body (clean_urls_of urls) true _) as [[[]|ex] f'];
    inversion Hrun; subst.
  apply Hp. intros k v [].
Qed.

Lemma from_url_result_error_or_long (url : Py.str) (r : outcome Py.str) :
  error_or_long (from_url_result url r).
Proof.
  unfold error_or_long. destruct r as [raw|ex]; simpl; [|now left].
  destruct (Py.len (clean_text raw) <? 10) eqn:E; [now left|right].
  now apply Nat.ltb_ge in E.
Qed.

Lemma traditional_method_contents (clean : list Py.str) :
  forall f f',
    traditional_method clean f = (Returned tt, f') ->
    (forall k, In k (Dict.keys (contents f')) <->
               In k (Dict.keys (contents f)) \/ In k clean) /\
    (forall k v, In (k, v) (contents f') -> In (k, v) (contents f) \/ error_or_long v).
Proof.
  unfold traditional_method.
  induction clean as [|url clean IH]; intros f f' Hrun; simpl in Hrun.
  - injection Hrun as <-. split; [intros k; simpl; tauto|auto].
  - unfold bind at 1 2 in Hrun.
    rewrite (call_run _ f _ _ (extract_content_from_url_run url (env f))) in Hrun.
    unfold store_content at 1 in Hrun. cbn [env contents has_valid_content] in Hrun.
    apply IH in Hrun. cbn [contents] in Hrun. destruct Hrun as [Hk Hv]. split.
    + intros k. rewrite Hk, dict_keys_set. simpl. intuition.
    + intros k v Hin. destruct (Hv k v Hin) as [H|H]; [|now right].
      apply dict_set_in in H. destruct H as [H| ->]; [now left|right].
      apply from_url_result_error_or_long.
Qed.

(** X7. With the BeautifulSoup method [process_urls] fetches each cleaned URL
    once, in order; every cleaned URL, and nothing else, is a key of the
    mapping, and every content is an error message or a text of ten
    characters or more. *)
Theorem process_urls_beautifulsoup (urls : list Py.str) (e : Env) :
  exists contents e',
    process_urls urls false e = (Returned contents, e') /\
    trace e' = trace e ++ flat_map from_url_events (clean_urls_of urls) /\
    (forall u, In u (Dict.keys contents) <-> In u (clean_urls_of urls)) /\
    (forall k v, In (k, v) contents -> error_or_long v).
Proof.
  unfold process_urls, process_urls_body. cbn [andb].
  destruct (traditional_method_run (clean_urls_of urls)
              {| env := e; contents := Dict.empty; has_valid_content := false |})
    as (f' & Hrun & Htr & _).
  rewrite Hrun. exists (contents f'), (env f'). split; [reflexivity|].
  split; [exact Htr|].
  apply traditional_method_contents in Hrun. destruct Hrun as [Hk Hv]. split.
  - intros u. rewrite Hk. simpl. tauto.
  - intros k v Hin. destruct (Hv k v Hin) as [[]|H]. exact H.
Qed.

Lemma blank_urls_clean (urls : list Py.str) :
  Forall (fun u => Py.strip u = []) urls -> clean_urls_of urls = [].
Proof.
  intros H. rewrite clean_urls_of_normalize. unfold normalize.
  induction H as [|u urls Hu _ IH]; simpl; auto. now rewrite Hu.
Qed.

(** X6. When every entry is blank there is nothing to do: [process_urls]
    returns the empty mapping and calls nothing, whatever the method. *)
Theorem process_urls_blank_input (urls : list Py.str) (use_langchain : bool) (e : Env) :
  Forall (fun u => Py.strip u = []) urls ->
  process_urls urls use_langchain e = (Returned Dict.empty, e).
Proof.
  intros H. unfold process_urls, process_urls_body. rewrite (blank_urls_clean _ H).
  destruct use_langchain; reflexivity.
Qed.

Lemma collect_batch_keys (docs : list Document) :
  forall f f',
    collect_batch docs f = (Returned tt, f') ->
    forall u, In u (Dict.keys (contents f)) \/ In u (batch_sources docs) ->
              In u (Dict.keys (contents f')).
Proof.
  unfold collect_batch.
  induction docs as [|doc docs IH]; intros f f' Hrun u Hu; simpl in Hrun.
  - injection Hrun as <-. destruct Hu as [Hu|[]]. exact Hu.
  - unfold bind at 1 in Hrun. unfold batch_sources in Hu. simpl in Hu.
    fold (batch_sources docs) in Hu. unfold is_error in Hrun.
    destruct (Dict.get (metadata doc) source_key) as [url|].
    + destruct (Py.truthy url && negb (Py.startswith (page_content doc) (Py.lit "Error"))).
      * unfold bind at 1, store_content at 1, set_has_valid_content at 1 in Hrun.
        cbn [env contents has_valid_content] in Hrun.
        eapply IH; [exact Hrun|]. simpl. rewrite dict_keys_set.
        destruct Hu as [Hu|Hu]; [now left; left|].
        apply in_app_or in Hu. destruct Hu as [[<-|[]]|Hu]; [left; now right|now right].
      * simpl in Hrun. eapply IH; [exact Hrun|]. simpl in Hu. exact Hu.
    + simpl in Hrun. eapply IH; [exact Hrun|]. simpl in Hu. exact Hu.
Qed.

(** X9. When the batch extractor yields a usable document the cascade ends
    there: no other extractor is called, and the keys of the mapping are
    the sources of the usable documents, so a cleaned URL the batch gave
    nothing usable for is not tried again. *)
Theorem batch_success_ends_cascade
    (urls : list Py.str) (e : Env) (docs : list Document) (e1 : Env) :
  clean_urls_of urls <> [] ->
  extract_content_with_html2text (clean_urls_of urls) e = (Returned docs, e1) ->
  existsb usable docs = true ->
  exists contents,
    process_urls urls true e = (Returned contents, e1) /\
    (forall u, In u (Dict.keys contents) <-> In u (batch_sources docs)).
Proof.
  intros Hne Hx Hu.
  assert (Ht : Py.truthy_list (clean_urls_of urls) = true).
  { destruct (clean_urls_of urls); [congruence|reflexivity]. }
  unfold process_urls, process_urls_body. rewrite Ht.
  change (true && true) with true. cbv iota.
  set (f0 := {| env := e; contents := Dict.empty; has_valid_content := false |}).
  unfold try_except at 1, bind at 1.
  rewrite (call_run _ f0 _ _ Hx).
  unfold bind at 1, set_has_valid_content at 1. cbv beta iota.
  cbn [env contents has_valid_content].
  unfold bind at 1.
  match goal with |- context [collect_batch docs ?g] =>
    destruct (collect_batch_run docs g) as (f2 & Hc & He2 & Hv2 & Hk2 & _);
    pose proof (collect_batch_keys docs g f2 Hc) as Hall end.
  rewrite Hc.
  unfold bind, get_has_valid_content, ret. rewrite Hv2, Hu.
  cbn [env contents has_valid_content orb negb] in *.
  exists (contents f2). split; [rewrite Hv2, Hu; cbn [negb]; now rewrite He2|].
  intros u. split.
  - intros Hin. destruct (Hk2 u Hin) as [[]|H]. exact H.
  - intros Hin. apply Hall. now right.
Qed.

(** X3. [extract_content_from_url] never raises and makes one GET. When the
    GET raises, the result is the error message that carries the text of
    the exception; otherwise it is the "too short" message or a text of
    ten characters or more that the clean-up leaves unchanged. *)
Theorem extract_content_from_url_outcome (url : Py.str) (e : Env) :
  exists text e',
    extract_content_from_url url e = (Returned text, e') /\
    trace e' = trace e ++ [Call_from_url url; Ext_requests_get url] /\
    world e' = snd (requests_get_text url (world e)) /\
    match fst (requests_get_text url (world e)) with
    | Raised ex =>
        text = Py.lit "Error extracting content from " ++ url ++ Py.lit ": " ++ str_of_exn ex
    | Returned _ =>
        text = too_short_message url \/ (10 <= Py.len text /\ clean_text text = text)
    end.
Proof.
  rewrite extract_content_from_url_run. do 2 eexists.
  split; [reflexivity|]. split; [reflexivity|]. split; [reflexivity|].
  destruct (fst (requests_get_text url (world e))) as [raw|ex]; simpl; [|reflexivity].
  destruct (Py.len (clean_text raw) <? 10) eqn:E; [now left|right].
  split; [now apply Nat.ltb_ge in E|].
  destruct (clean_text_lines raw) as (lines & El & Hl).
  rewrite El. now apply clean_text_of_clean_lines.
Qed.

(** X4. [extract_content_with_langchain] never raises, makes one loader call
    and never returns an empty list: the first document either has ten
    characters or more once stripped, or it is the only document, its
    text is an error message and its metadata names the URL. *)
Theorem extract_content_with_langchain_outcome (url : Py.str) (e : Env) :
  exists doc0 docs e',
    extract_content_with_langchain url e = (Returned (doc0 :: docs), e') /\
    trace e' = trace e ++ [Call_langchain url; Ext_WebBaseLoader_load url] /\
    (10 <= Py.len (Py.strip (page_content doc0)) \/
     (docs = [] /\ is_error (page_content doc0) = true /\
      Dict.get (metadata doc0) source_key = Some url)).
Proof.
  unfold extract_content_with_langchain, try_except, bind, log, ext, ret.
  cbn [world trace].
  assert (Hsrc : forall c err,
            Dict.get (metadata (error_document c url err)) source_key = Some url).
  { intros c err. unfold error_document. cbn [metadata]. cbv [Dict.empty].
    simpl Dict.set. simpl. reflexivity. }
  destruct (WebBaseLoader_load url (world e)) as [[loaded|ex] w']; cbn [world trace].
  - destruct loaded as [|doc0 docs].
    + do 3 eexists. split; [reflexivity|]. split; [now rewrite <- app_assoc|].
      right. repeat split; try apply Hsrc.
    + destruct (Py.len (Py.strip (page_content doc0)) <? 10) eqn:E.
      * do 3 eexists. split; [reflexivity|]. split; [now rewrite <- app_assoc|].
        right. repeat split; try apply Hsrc.
      * do 3 eexists. split; [reflexivity|]. split; [now rewrite <- app_assoc|].
        left. now apply Nat.ltb_ge in E.
  - do 3 eexists. split; [reflexivity|]. split; [now rewrite <- app_assoc|].
    right. repeat split; try apply Hsrc.
Qed.

Lemma startswith_prefix (p s : Py.str) : Py.startswith (p ++ s) p = true.
Proof.
  induction p as [|c p IH]; simpl.
  - now destruct s.
  - now rewrite N.eqb_refl, IH.
Qed.

Lemma add_scheme_wellformed (s : Py.str) :
  s <> [] -> trimmed s ->
  Py.startswith_any (add_scheme s) url_schemes = true /\
  trimmed (add_scheme s) /\ add_scheme s <> [].
Proof.
  intros Hne [Hh Hr]. unfold add_scheme, Py.startswith_any, url_schemes.
  destruct (Py.startswith s (Py.lit "http://") || Py.startswith s (Py.lit "https://")) eqn:E.
  - cbn [existsb]. rewrite orb_false_r. repeat split; auto.
  - repeat split.
    + cbn [existsb]. rewrite (startswith_prefix (Py.lit "https://") s).
      cbn [orb]. apply orb_true_r.
    + rewrite rev_app_distr. apply head_ok_app; auto.
      intros Er. apply Hne. rewrite <- (rev_involutive s), Er. reflexivity.
    + discriminate.
Qed.

Lemma normalize_wellformed (urls : list Py.str) :
  Forall (fun u => Py.startswith_any u url_schemes = true /\ trimmed u /\ u <> [])
         (normalize urls).
Proof.
  unfold normalize. apply Forall_forall. intros u Hu.
  apply in_map_iff in Hu. destruct Hu as (s & <- & Hs).
  apply filter_In in Hs. destruct Hs as [Hs Ht].
  apply in_map_iff in Hs. destruct Hs as (raw & <- & _).
  apply add_scheme_wellformed; [|apply trimmed_strip].
  intros E. rewrite E in Ht. discriminate.
Qed.

Lemma normalize_fixed (l : list Py.str) :
  Forall (fun u => Py.startswith_any u url_schemes = true /\ trimmed u /\ u <> []) l ->
  normalize l = l.
Proof.
  unfold normalize. induction 1 as [|u l (Hs & Ht & Hne) _ IH]; [reflexivity|].
  simpl map. rewrite (strip_trimmed _ Ht).
  destruct u as [|c u]; [congruence|]. simpl filter. simpl map. rewrite IH. f_equal.
  unfold add_scheme. unfold Py.startswith_any, url_schemes in Hs. cbn [existsb] in Hs.
  rewrite orb_false_r in Hs. now rewrite Hs.
Qed.

(** X5. Every cleaned URL is non-empty, has no whitespace around it and
    starts with "http://" or "https://"; cleaning the cleaned URLs again
    changes nothing, and cleaning never adds an entry. *)
Theorem clean_urls_wellformed (urls : list Py.str) :
  Forall (fun u => u <> [] /\ Py.strip u = u /\ Py.startswith_any u url_schemes = true)
         (clean_urls_of urls) /\
  clean_urls_of (clean_urls_of urls) = clean_urls_of urls /\
  List.length (clean_urls_of urls) <= List.length urls.
Proof.
  rewrite !clean_urls_of_normalize. pose proof (normalize_wellformed urls) as H.
  split; [|split].
  - eapply Forall_impl; [|exact H]. intros u (Hs & Ht & Hne).
    repeat split; auto. now apply strip_trimmed.
  - now apply normalize_fixed.
  - unfold normalize. rewrite length_map.
    etransitivity; [apply filter_length_le|]. now rewrite length_map.
Qed.

Lemma filter_idem {A} (keep : A -> bool) (l : list A) :
  filter keep (filter keep l) = filter keep l.
Proof.
  induction l as [|x l IH]; simpl; auto.
  destruct (keep x) eqn:E; simpl; rewrite ?E, IH; auto.
Qed.

Lemma dict_set_fresh (d : Dict.t) (k v : Py.str) :
  ~ In k (Dict.keys d) -> Dict.set d k v = d ++ [(k, v)].
Proof.
  induction d as [|[k' v'] d IH]; simpl; auto. intros H.
  destruct (Py.eqb k' k) eqn:E.
  - apply py_eqb_eq in E. exfalso. apply H. now left.
  - rewrite IH; auto.
Qed.

Lemma dict_set_nodup (d : Dict.t) (k v : Py.str) :
  NoDup (Dict.keys d) -> NoDup (Dict.keys (Dict.set d k v)).
Proof.
  induction d as [|[k' v'] d IH]; simpl; intros H.
  - constructor; [intros []|constructor].
  - inversion H as [|? ? Hnin Hnd]; subst. destruct (Py.eqb k' k) eqn:E; simpl.
    + constructor; auto.
    + constructor; [|now apply IH].
      intros Hin. apply (dict_keys_set d k v k') in Hin. destruct Hin as [Hin|Hin]; auto.
      subst. rewrite py_eqb_refl in E. discriminate.
Qed.

Lemma valid_contents_loop (items acc : Dict.t) :
  NoDup (Dict.keys acc ++ Dict.keys items) ->
  fold_left
    (fun valid_contents '(url, content) =>
       if negb (is_error content)
       then Dict.set valid_contents url content
       else valid_contents)
    items acc
  = acc ++ filter (fun '(_, content) => negb (is_error content)) items.
Proof.
  revert acc. induction items as [|[url content] items IH]; intros acc H; simpl.
  - now rewrite app_nil_r.
  - simpl in H. pose proof (NoDup_remove_2 _ _ _ H) as Hfresh.
    pose proof (NoDup_remove_1 _ _ _ H) as Hrest.
    destruct (is_error content); simpl.
    + now apply IH.
    + rewrite dict_set_fresh by (intros Hin; apply Hfresh; apply in_or_app; now left).
      rewrite IH.
      * now rewrite <- app_assoc.
      * unfold Dict.keys in *. rewrite map_app. simpl. now rewrite <- app_assoc.
Qed.

(** In a mapping without duplicate keys the final check of
    [process_urls] keeps exactly the entries that are not error
    messages, in order. *)
Lemma valid_contents_filter (contents : Dict.t) :
  NoDup (Dict.keys contents) ->
  valid_contents_of contents =
  filter (fun '(_, content) => negb (is_error content)) contents.
Proof.
  intros H. unfold valid_contents_of, Dict.items. now rewrite valid_contents_loop.
Qed.

Lemma process_urls_body_nodup (clean : list Py.str) (use_langchain : bool) :
  preserves (fun f => NoDup (Dict.keys (contents f))) (process_urls_body clean use_langchain).
Proof.
  set (P := fun c : Dict.t => NoDup (Dict.keys c)).
  assert (Hstore : forall url content,
            preserves (fun f => P (contents f)) (store_content url content)).
  { intros url content f H. simpl. now apply dict_set_nodup. }
  assert (Hvalid : forall url content,
            preserves (fun f => P (contents f))
                      (store_content url content ;; set_has_valid_content true)).
  { intros url content f H. simpl. now apply dict_set_nodup. }
  assert (Htrad : preserves (fun f => P (contents f)) (traditional_method clean)).
  { apply preserves_for_each. intros url _.
    apply preserves_bind; [apply (preserves_call P)|]. intros c. apply Hstore. }
  unfold process_urls_body.
  destruct (use_langchain && Py.truthy_list clean); [|exact Htrad].
  apply preserves_try_except; [|intros _; exact Htrad].
  apply preserves_bind; [apply (preserves_call P)|]. intros docs.
  apply preserves_bind; [apply (preserves_set_has_valid_content P)|]. intros _.
  apply preserves_bind.
  { apply preserves_for_each. intros doc _. cbv zeta.
    destruct (Dict.get (metadata doc) source_key) as [url|]; [|apply preserves_ret].
    destruct (Py.truthy url && negb (is_error (page_content doc)));
      [apply Hvalid|apply preserves_ret]. }
  intros _. apply preserves_bind; [apply (preserves_get_has_valid_content P)|].
  intros hv. apply preserves_bind.
  { destruct (negb hv); [|apply preserves_ret].
    apply preserves_for_each. intros url _.
    apply preserves_try_except; [|intros ex; apply preserves_ret].
    apply preserves_bind; [apply (preserves_call P)|].
    intros [|doc0 ds]; [apply preserves_ret|].
    destruct (negb (is_error (page_content doc0))); [apply Hvalid|apply preserves_ret]. }
  intros _. apply preserves_bind; [apply (preserves_get_has_valid_content P)|].
  intros hv'. destruct (negb hv'); [|apply preserves_ret].
  apply preserves_for_each. intros url _.
  apply preserves_bind; [apply (preserves_call P)|]. intros c.
  destruct (negb (is_error c)); [apply Hvalid|apply preserves_ret].
Qed.

(** X10. The documents built from the mapping [process_urls] returns are the
    documents that would be built from the filtered mapping of its final
    check: the error entries it returns never reach the index. *)
Theorem documents_ignore_error_entries
    (urls : list Py.str) (use_langchain : bool) (e : Env) :
  exists contents e',
    process_urls urls use_langchain e = (Returned contents, e') /\
    NoDup (Dict.keys contents) /\
    create_documents_from_contents contents =
    create_documents_from_contents (valid_contents_of contents).
Proof.
  destruct (process_urls_run urls use_langchain e) as (c & e' & t & Hrun & _).
  exists c, e'. split; [exact Hrun|].
  assert (Hnd : NoDup (Dict.keys c)).
  { pose proof (process_urls_body_nodup (clean_urls_of urls) use_langchain
                  {| env := e; contents := Dict.empty; has_valid_content := false |})
      as Hp.
    unfold process_urls in Hrun.
    destruct (process_urls_body (clean_urls_of urls) use_langchain _) as [[[]|ex] f'];
      inversion Hrun; subst.
    apply Hp. constructor. }
  split; [exact Hnd|].
  rewrite (valid_contents_filter _ Hnd), !create_documents_from_contents_filter.
  unfold Dict.items. now rewrite filter_idem.
Qed.

End OrchestratorInvariants.

(* ================================================================== *)
(** ** Facts about the application *)
(* ================================================================== *)

Section AppFacts.

Context {X : Externals}.

Lemma preserves_in_app {A} (P : Session -> Prop) (m : M Env A) :
  preserves (fun a => P (session a)) (in_app m).
Proof. intros a H. unfold in_app. now destruct (m (app_env a)). Qed.

Lemma preserves_update_session (P : Session -> Prop) (f : Session -> Session) :
  (forall s, P s -> P (f s)) -> preserves (fun a => P (session a)) (update_session f).
Proof. intros Hf a H. simpl. now apply Hf. Qed.

Lemma preserves_get_session (P : Session -> Prop) :
  preserves (fun a => P (session a)) get_session.
Proof. intros a H; exact H. Qed.

Lemma create_vector_store_without_token (cfg : Config) (documents : list Document) :
  Py.truthy_opt (HUGGINGFACEHUB_API_TOKEN cfg) = false ->
  forall e, create_vector_store cfg documents e =
            (Raised (ValueError no_embeddings_message), e).
Proof.
  intros H e. unfold create_vector_store, raise.
  destruct (HUGGINGFACEHUB_API_TOKEN cfg) as [token|]; [|reflexivity].
  simpl in H. now rewrite H.
Qed.

(** [qa_section] and everything [url_input_section] does keep a property
    of the session that every assignment of the code keeps. *)
Lemma main_preserves (P : Session -> Prop) (cfg : Config) (ui : Interaction) :
  (forall s contents,
     P s -> P {| urls_content := contents; qa_chain := qa_chain s;
                 processed_urls := processed_urls s; error_logs := error_logs s |}) ->
  (forall s logs,
     P s -> P {| urls_content := urls_content s; qa_chain := qa_chain s;
                 processed_urls := processed_urls s; error_logs := logs |}) ->
  (forall contents split_docs,
     preserves (fun a => P (session a))
       (vector_store <- in_app (create_vector_store cfg split_docs) ;;
        chain <- in_app (setup_qa_system cfg vector_store) ;;
        update_session (fun s =>
          {| urls_content := urls_content s; qa_chain := Some chain;
             processed_urls := Dict.keys contents; error_logs := error_logs s |}) ;;
        ret true)) ->
  preserves (fun a => P (session a)) (main cfg ui).
Proof.
  intros Hcontents Hlogs Hbuild. unfold main.
  apply preserves_bind.
  - unfold url_input_section.
    destruct (extract_button ui && Py.truthy (urls_input ui) &&
              Py.truthy_opt (has_credentials cfg)); [|apply preserves_ret].
    apply preserves_bind.
    { apply preserves_update_session. intros s Hs. now apply Hlogs. }
    intros _. cbv zeta. apply preserves_bind; [apply preserves_in_app|].
    intros result. apply preserves_bind; [|intros _; apply preserves_ret].
    unfold process_callback. apply preserves_bind.
    { apply preserves_update_session. intros s Hs. now apply Hcontents. }
    intros _. cbv zeta.
    destruct (Py.truthy_list (create_documents_from_contents result));
      [|apply preserves_ret].
    apply preserves_bind; [apply preserves_in_app|]. intros split_docs.
    apply preserves_try_except; [apply Hbuild|].
    intros ex. apply preserves_bind; [|intros _; apply preserves_ret].
    apply preserves_update_session. intros s Hs. now apply Hlogs.
  - intros _. unfold qa_section. apply preserves_bind; [apply preserves_get_session|].
    intros s. destruct (qa_chain s) as [chain|]; [|apply preserves_ret].
    destruct (ask_button ui && Py.truthy (question ui)); [|apply preserves_ret].
    apply preserves_bind; [apply preserves_in_app|]. intros answer. apply preserves_ret.
Qed.

Lemma run_session_preserves (P : App -> Prop) (cfg : Config) :
  (forall ui, preserves P (main cfg ui)) ->
  forall uis a, P a -> P (run_session cfg uis a).
Proof.
  intros H uis. unfold run_session.
  induction uis as [|ui uis IH]; intros a Ha; simpl; auto.
  apply IH. now apply H.
Qed.

(** X15. Without a HuggingFace token no run of the application builds a
    chain: whatever the other credentials and whatever the user does,
    the chain of the session stays the one it was. *)
Theorem no_token_no_chain (cfg : Config) (uis : list Interaction) (a : App) :
  Py.truthy_opt (HUGGINGFACEHUB_API_TOKEN cfg) = false ->
  qa_chain (session (run_session cfg uis a)) = qa_chain (session a).
Proof.
  intros Htok.
  apply (run_session_preserves
           (fun a' => qa_chain (session a') = qa_chain (session a)) cfg); [|reflexivity].
  intros ui.
  apply (main_preserves (fun s => qa_chain s = qa_chain (session a))); auto.
  intros contents split_docs. apply preserves_bind_raises.
  - apply (preserves_in_app (fun s => qa_chain s = qa_chain (session a))).
  - intros a'. unfold in_app.
    rewrite (create_vector_store_without_token cfg split_docs Htok). simpl. eauto.
Qed.

(** X16. A chain, once built, is never taken away: a later extraction that
    fails leaves the earlier chain in the session. *)
Theorem chain_is_never_removed (cfg : Config) (uis : list Interaction) (a : App) :
  qa_chain (session a) <> None ->
  qa_chain (session (run_session cfg uis a)) <> None.
Proof.
  apply (run_session_preserves (fun a' => qa_chain (session a') <> None) cfg).
  intros ui. apply (main_preserves (fun s => qa_chain s <> None)); auto.
  intros contents split_docs.
  apply preserves_bind; [apply (preserves_in_app (fun s => qa_chain s <> None))|].
  intros vector_store.
  apply preserves_bind; [apply (preserves_in_app (fun s => qa_chain s <> None))|].
  intros chain. apply preserves_bind; [|intros _; apply preserves_ret].
  apply (preserves_update_session (fun s => qa_chain s <> None)).
  intros s _. simpl. discriminate.
Qed.

(** X11. What [process_callback] leaves in the session. However it ends,
    the mapping is stored. When it returns [True], at least one document
    was built, the session holds a new chain, the processed URLs are all
    the keys of the mapping, those with an error content included, and
    the error log is unchanged. When it returns [False], or raises
    because the text splitter did, the chain and the processed URLs are
    those of before; when it raises the error log is unchanged too. *)
Theorem process_callback_result (cfg : Config) (contents : Dict.t) (a : App) :
  let a' := snd (process_callback cfg contents a) in
  urls_content (session a') = contents /\
  match fst (process_callback cfg contents a) with
  | Returned true =>
      create_documents_from_contents contents <> [] /\
      (exists chain, qa_chain (session a') = Some chain) /\
      processed_urls (session a') = Dict.keys contents /\
      error_logs (session a') = error_logs (session a)
  | Returned false =>
      qa_chain (session a') = qa_chain (session a) /\
      processed_urls (session a') = processed_urls (session a)
  | Raised ex =>
      create_documents_from_contents contents <> [] /\
      fst (split_documents (create_documents_from_contents contents) (app_env a))
        = Raised ex /\
      qa_chain (session a') = qa_chain (session a) /\
      processed_urls (session a') = processed_urls (session a) /\
      error_logs (session a') = error_logs (session a)
  end.
Proof.
  cbv zeta.
  unfold process_callback, bind, in_app, update_session, try_except, ret.
  cbv zeta. cbn [app_env session].
  destruct (create_documents_from_contents contents) as [|d ds];
    cbn [Py.truthy_list]; cbv beta iota.
  - cbn. auto.
  - cbv [app_env session].
    destruct (split_documents (d :: ds) (let (app_env, _) := a in app_env))
      as [[split_docs|ex] e1]; cbv beta iota; cbn [app_env session fst snd].
    + destruct (create_vector_store cfg split_docs e1) as [[vs|ex] e2];
        cbv beta iota; cbn [app_env session fst snd].
      * destruct (setup_qa_system cfg vs e2) as [[chain|ex] e3];
          cbv beta iota; cbn [app_env session fst snd urls_content qa_chain
                                processed_urls error_logs].
        { split; [reflexivity|]. split; [discriminate|]. split; [eauto|].
          split; reflexivity. }
        { split; [reflexivity|]. split; reflexivity. }
      * cbn [urls_content qa_chain processed_urls error_logs].
        split; [reflexivity|]. split; reflexivity.
    + cbn [urls_content qa_chain processed_urls error_logs].
      split; [reflexivity|]. split; [discriminate|]. repeat split; reflexivity.
Qed.

(** X12. When every entry of the mapping is an error message, or there is
    none, [process_callback] returns [False] at once: the mapping is
    stored, nothing is split, embedded or set up. *)
Theorem process_callback_nothing_to_index (cfg : Config) (contents : Dict.t) (a : App) :
  (forall k v, In (k, v) contents -> is_error v = true) ->
  process_callback cfg contents a =
  (Returned false,
   {| app_env := app_env a;
      session := {| urls_content := contents; qa_chain := qa_chain (session a);
                    processed_urls := processed_urls (session a);
                    error_logs := error_logs (session a) |} |}).
Proof.
  intros H. unfold process_callback, bind at 1, update_session at 1. cbv zeta.
  assert (E : create_documents_from_contents contents = []).
  { rewrite create_documents_from_contents_filter. unfold Dict.items.
    induction contents as [|[k v] c IH]; simpl; auto.
    rewrite (H k v) by now left. simpl. apply IH.
    intros k' v' Hin. apply (H k' v'). now right. }
  rewrite E. reflexivity.
Qed.

(** X13. Without a HuggingFace token, once the documents are split,
    [process_callback] returns [False], appends the "no embeddings
    service" message to the error log and leaves the chain and the
    processed URLs as they were; no client is constructed. *)
Theorem process_callback_without_token
    (cfg : Config) (contents : Dict.t) (a : App)
    (split_docs : list Document) (e1 : Env) :
  Py.truthy_opt (HUGGINGFACEHUB_API_TOKEN cfg) = false ->
  create_documents_from_contents contents <> [] ->
  split_documents (create_documents_from_contents contents) (app_env a)
    = (Returned split_docs, e1) ->
  process_callback cfg contents a =
  (Returned false,
   {| app_env := e1;
      session := {| urls_content := contents; qa_chain := qa_chain (session a);
                    processed_urls := processed_urls (session a);
                    error_logs := error_logs (session a) ++ [no_embeddings_message] |} |}).
Proof.
  intros Htok Hne Hsplit.
  unfold process_callback, bind at 1, update_session at 1. cbv zeta.
  destruct (create_documents_from_contents contents) as [|d ds]; [congruence|].
  cbn [Py.truthy_list]. unfold bind at 1, in_app at 1. cbn [app_env session].
  rewrite Hsplit.
  unfold try_except, bind, in_app, update_session, ret. cbn [app_env session].
  rewrite (create_vector_store_without_token cfg split_docs Htok). reflexivity.
Qed.

(** X14. An exception of the embedding client's constructor comes out of
    [create_vector_store] as a [ValueError] whose message is "Error
    creating embeddings: " and the text of the exception; the index is
    not built. *)
Theorem create_vector_store_wraps_client_error
    (cfg : Config) (token : Py.str) (documents : list Document) (e : Env)
    (ex : exn) (w' : World) :
  HUGGINGFACEHUB_API_TOKEN cfg = Some token -> Py.truthy token = true ->
  Embeddings_init token embedding_model (world e) = (Raised ex, w') ->
  create_vector_store cfg documents e =
  (Raised (ValueError (Py.lit "Error creating embeddings: " ++ str_of_exn ex)),
   {| world := w';
      trace := trace e ++ [Ext_Embeddings_init token embedding_model] |}).
Proof.
  intros Ht Hn Hinit. unfold create_vector_store. rewrite Ht, Hn. cbn [negb].
  unfold bind, try_except, ext, raise. now rewrite Hinit.
Qed.

(** X17. [main] gives an answer only when "Ask" is reported with a non-empty
    question, and the answer comes from the chain that is in the session
    when the run ends: after an extraction in the same run, the new one. *)
Theorem main_answers_with_current_chain
    (cfg : Config) (ui : Interaction) (a a' : App) (answer : Py.str * list Document) :
  main cfg ui a = (Returned (Some answer), a') ->
  ask_button ui = true /\ question ui <> [] /\
  exists chain e0,
    qa_chain (session a') = Some chain /\
    qa_chain_call chain (question ui) (world e0) = (Returned answer, world (app_env a')) /\
    trace (app_env a') = trace e0 ++ [Ext_qa_chain_call (question ui)].
Proof.
  unfold main, bind at 1.
  destruct (url_input_section cfg ui a) as [[[]|ex] a1]; [|discriminate].
  unfold qa_section, bind at 1, get_session at 1.
  destruct (qa_chain (session a1)) as [chain|] eqn:Eq; [|discriminate].
  destruct (ask_button ui) eqn:Ea; [|discriminate].
  destruct (question ui) as [|c q] eqn:Equ; [discriminate|]. cbn [andb Py.truthy].
  unfold bind, in_app, get_answer, ext, ret.
  destruct (qa_chain_call chain (c :: q) (world (app_env a1))) as [[ans|ex] w2] eqn:Ec;
    [|discriminate].
  intros H. inversion H; subst. cbn.
  split; [reflexivity|]. split; [discriminate|].
  exists chain, (app_env a1). auto.
Qed.

End AppFacts.

(* ================================================================== *)
(** ** Facts about the presentation layer *)
(* ================================================================== *)

Lemma groups_mem_keys (g : Groups.t) (k : Py.str) :
  Groups.mem g k = true <-> In k (Groups.keys g).
Proof.
  induction g as [|[k' ds] g IH]; simpl; [easy|].
  rewrite orb_true_iff, py_eqb_eq, IH. tauto.
Qed.

Lemma groups_append_keys (g : Groups.t) (k : Py.str) (d : Document) :
  Groups.keys (Groups.append g k d) = Groups.keys g.
Proof.
  induction g as [|[k' ds] g IH]; simpl; auto.
  destruct (Py.eqb k' k); simpl; auto. now rewrite IH.
Qed.

Lemma groups_append_in (g : Groups.t) (k : Py.str) (d : Document) u ds :
  NoDup (Groups.keys g) ->
  In (u, ds) (Groups.append g k d) ->
  (u <> k /\ In (u, ds) g) \/
  (u = k /\ exists ds0, In (k, ds0) g /\ ds = ds0 ++ [d]).
Proof.
  induction g as [|[k' ds'] g IH]; simpl; [easy|]. intros Hnd Hin.
  inversion Hnd as [|? ? Hfresh Hnd']; subst.
  destruct (Py.eqb k' k) eqn:E.
  - apply py_eqb_eq in E. subst k'. destruct Hin as [Hin|Hin].
    + injection Hin as <- <-. right. split; auto. exists ds'. split; auto.
    + left. split; [|now right]. intros ->. apply Hfresh.
      apply in_map_iff. exists (k, ds). now split.
  - destruct Hin as [Hin|Hin].
    + injection Hin as <- <-. left. split; [|now left].
      intros ->. rewrite py_eqb_refl in E. discriminate.
    + destruct (IH Hnd' Hin) as [[Hne H]|[-> (ds0 & H & ->)]].
      * left. split; auto.
      * right. split; auto. exists ds0. split; auto.
Qed.

Lemma grouped_step (docs : list Document) (g : Groups.t) (doc : Document) :
  grouped docs g ->
  grouped (docs ++ [doc])
    (Groups.append
       (if negb (Groups.mem g (source_or_unknown doc))
        then g ++ [(source_or_unknown doc, [])] else g)
       (source_or_unknown doc) doc).
Proof.
  intros (Hnd & Hgroups & Hall). set (url := source_or_unknown doc).
  set (g1 := if negb (Groups.mem g url) then g ++ [(url, [])] else g).
  assert (Hnd1 : NoDup (Groups.keys g1)).
  { unfold g1. destruct (Groups.mem g url) eqn:Em; simpl; auto.
    unfold Groups.keys. rewrite map_app. simpl.
    apply NoDup_app; [exact Hnd|repeat constructor; intros []|].
    intros x Hx [<-|[]]. apply groups_mem_keys in Hx. congruence. }
  assert (Hurl : In url (Groups.keys g1)).
  { unfold g1. destruct (Groups.mem g url) eqn:Em; simpl.
    - now apply groups_mem_keys.
    - unfold Groups.keys. rewrite map_app. apply in_or_app. right. now left. }
  assert (Hold : forall u ds, In (u, ds) g1 ->
            In (u, ds) g \/ (u = url /\ ds = [] /\ Groups.mem g url = false)).
  { unfold g1. intros u ds Hin. destruct (Groups.mem g url) eqn:Em; simpl in Hin; auto.
    apply in_app_or in Hin. destruct Hin as [Hin|[Hin|[]]]; auto.
    injection Hin as <- <-. auto. }
  split; [now rewrite groups_append_keys|]. split.
  - intros u ds Hin. rewrite filter_app. simpl. fold url.
    apply (groups_append_in _ _ _ _ _ Hnd1) in Hin.
    destruct Hin as [[Hne Hin]|[-> (ds0 & Hin & ->)]].
    + destruct (Hold _ _ Hin) as [Hg|[Hu _]]; [|congruence].
      destruct (Hgroups _ _ Hg) as [Hne' ->]. split; auto.
      destruct (Py.eqb url u) eqn:E; [apply py_eqb_eq in E; congruence|].
      now rewrite app_nil_r.
    + rewrite py_eqb_refl. split; [now destruct ds0|]. f_equal.
      destruct (Hold _ _ Hin) as [Hg|(_ & -> & Hm)].
      * now destruct (Hgroups _ _ Hg).
      * destruct (filter _ docs) as [|d0 rest] eqn:Ef; auto.
        assert (Hd0 : In d0 (filter (fun d => Py.eqb (source_or_unknown d) url) docs))
          by (rewrite Ef; now left).
        apply filter_In in Hd0. destruct Hd0 as [Hd0 Hsrc].
        apply py_eqb_eq in Hsrc. apply Hall in Hd0. rewrite Hsrc in Hd0.
        apply groups_mem_keys in Hd0. congruence.
  - intros d Hd. rewrite groups_append_keys. apply in_app_or in Hd.
    destruct Hd as [Hd|[<-|[]]]; [|exact Hurl].
    apply Hall in Hd. unfold g1. destruct (negb (Groups.mem g url)); auto.
    unfold Groups.keys. rewrite map_app. apply in_or_app. now left.
Qed.

(** X18. The sources shown with an answer: each URL heads one group, no group
    is empty, the group of a URL is exactly the source documents with
    that source, in the order of the answer, and every source document
    is in the group of its source. *)
Theorem sources_by_url_groups (source_docs : list Document) :
  NoDup (Groups.keys (sources_by_url source_docs)) /\
  (forall url docs, In (url, docs) (sources_by_url source_docs) ->
     docs <> [] /\
     docs = filter (fun d => Py.eqb (source_or_unknown d) url) source_docs) /\
  (forall d, In d source_docs ->
     In (source_or_unknown d) (Groups.keys (sources_by_url source_docs))).
Proof.
  change (grouped source_docs (sources_by_url source_docs)).
  unfold sources_by_url.
  induction source_docs as [|doc docs IH] using rev_ind.
  - split; [constructor|]. split; [intros u ds []|intros d []].
  - rewrite fold_left_app. simpl. now apply grouped_step.
Qed.

(** X19. The footer agrees with the rest of the program: it says "No API
    configured" exactly when [has_credentials] is false, and otherwise
    names the client that [setup_qa_system] constructs. *)
Theorem footer_names_backend (cfg : Config) :
  footer cfg =
  Py.lit "Built with Streamlit, LangChain, and " ++
  (if Py.truthy_opt (has_credentials cfg) then
     match llm_of cfg with
     | AzureChatOpenAI _ _ _ _ _ => Py.lit "Using Azure OpenAI API"
     | ChatOpenAI _ _ _ => Py.lit "Using OpenAI API"
     end
   else Py.lit "No API configured").
Proof.
  unfold footer, show_footer, api_info, has_credentials, py_or, llm_of.
  destruct (Py.truthy_opt (using_azure cfg)) eqn:Ea;
    destruct (Py.truthy_opt (OPENAI_API_KEY cfg)) eqn:Eo;
    rewrite ?Ea, ?Eo; reflexivity.
Qed.

(** X20. Of the three credential warnings of [main] only the first can be
    shown: the other two ask for [using_azure] where it is false. With an
    Azure key whose endpoint or deployment name is missing, and no OpenAI
    key, extraction is disabled and no warning is shown. *)
Theorem credential_warning_cases (cfg : Config) :
  credential_warning cfg =
    (if negb (Py.truthy_opt (OPENAI_API_KEY cfg)) &&
        negb (Py.truthy_opt (AZURE_OPENAI_API_KEY cfg))
     then Some No_API_key_found else None) /\
  (Py.truthy_opt (OPENAI_API_KEY cfg) = false ->
   Py.truthy_opt (AZURE_OPENAI_API_KEY cfg) = true ->
   Py.truthy_opt (AZURE_OPENAI_ENDPOINT cfg) &&
   Py.truthy_opt (AZURE_OPENAI_DEPLOYMENT_NAME cfg) = false ->
   Py.truthy_opt (has_credentials cfg) = false /\ credential_warning cfg = None).
Proof.
  assert (Hu : Py.truthy_opt (using_azure cfg) =
               Py.truthy_opt (AZURE_OPENAI_API_KEY cfg) &&
               Py.truthy_opt (AZURE_OPENAI_ENDPOINT cfg) &&
               Py.truthy_opt (AZURE_OPENAI_DEPLOYMENT_NAME cfg)).
  { unfold using_azure, py_and.
    destruct (Py.truthy_opt (AZURE_OPENAI_API_KEY cfg)) eqn:Ek; rewrite ?Ek; simpl; auto.
    destruct (Py.truthy_opt (AZURE_OPENAI_ENDPOINT cfg)) eqn:Ee; rewrite ?Ee; simpl; auto. }
  assert (Hh : Py.truthy_opt (has_credentials cfg) =
               Py.truthy_opt (OPENAI_API_KEY cfg) || Py.truthy_opt (using_azure cfg)).
  { unfold has_credentials, py_or.
    destruct (Py.truthy_opt (OPENAI_API_KEY cfg)) eqn:E; simpl; auto. }
  unfold credential_warning. rewrite Hh, Hu.
  destruct (Py.truthy_opt (OPENAI_API_KEY cfg));
    destruct (Py.truthy_opt (AZURE_OPENAI_API_KEY cfg));
    destruct (Py.truthy_opt (AZURE_OPENAI_ENDPOINT cfg));
    destruct (Py.truthy_opt (AZURE_OPENAI_DEPLOYMENT_NAME cfg));
    simpl; split; auto; intros; try discriminate; auto.
Qed.

(* ================================================================== *)
(** ** The further properties at work in the small world *)
(* ================================================================== *)

#[local] Existing Instance TestWorld.externals.

Lemma process_urls_blank_input_witness :
  process_urls [Py.lit "  "; Py.lit ""] true (TestWorld.start TestWorld.web)
  = (Returned Dict.empty, TestWorld.start TestWorld.web).
Proof.
  apply (@process_urls_blank_input TestWorld.externals). repeat constructor.
Defined.

Lemma batch_success_ends_cascade_witness :
  exists docs e1 contents,
    process_urls [Py.lit "example.com/a"; Py.lit "https://example.com/b"] true
      (TestWorld.start TestWorld.web) = (Returned contents, e1) /\
    (forall u, In u (Dict.keys contents) <-> In u (batch_sources docs)).
Proof.
  do 2 eexists.
  eapply (@batch_success_ends_cascade TestWorld.externals
            [Py.lit "example.com/a"; Py.lit "https://example.com/b"]
            (TestWorld.start TestWorld.web)).
  - discriminate.
  - vm_compute. reflexivity.
  - reflexivity.
Defined.

Lemma no_token_no_chain_witness :
  qa_chain (session (run_session Demo.without_token
                       [TestWorld.eager_user; TestWorld.eager_user] TestWorld.fresh_app))
  = None.
Proof.
  apply (@no_token_no_chain TestWorld.externals Demo.without_token
           [TestWorld.eager_user; TestWorld.eager_user] TestWorld.fresh_app).
  reflexivity.
Defined.

Lemma chain_is_never_removed_witness :
  exists chain,
    qa_chain (session (run_session Demo.with_credentials [Demo.unlucky_user]
                         Demo.app_with_chain)) = Some chain.
Proof.
  assert (H : qa_chain (session Demo.app_with_chain) <> None) by discriminate.
  pose proof (@chain_is_never_removed TestWorld.externals Demo.with_credentials
                [Demo.unlucky_user] Demo.app_with_chain H) as Hn.
  destruct (qa_chain (session (run_session Demo.with_credentials [Demo.unlucky_user]
                                 Demo.app_with_chain))) as [chain|].
  - now exists chain.
  - exfalso. now apply Hn.
Defined.

Lemma process_callback_result_witness :
  urls_content
    (session (snd (process_callback Demo.with_credentials Demo.partial_contents
                     TestWorld.fresh_app))) = Demo.partial_contents /\
  fst (process_callback Demo.with_credentials Demo.partial_contents TestWorld.fresh_app)
    = Returned true /\
  processed_urls
    (session (snd (process_callback Demo.with_credentials Demo.partial_contents
                     TestWorld.fresh_app))) = [TestWorld.url_a; TestWorld.url_b].
Proof.
  pose proof (@process_callback_result TestWorld.externals Demo.with_credentials
                Demo.partial_contents TestWorld.fresh_app) as H.
  cbv zeta in H. destruct H as [Hstored H]. split; [exact Hstored|].
  assert (E : fst (process_callback Demo.with_credentials Demo.partial_contents
                     TestWorld.fresh_app) = Returned true)
    by (vm_compute; reflexivity).
  rewrite E in H. split; [exact E|].
  destruct H as (_ & _ & Hp & _). exact Hp.
Defined.

Lemma process_callback_nothing_to_index_witness :
  process_callback Demo.with_credentials Demo.failed_contents TestWorld.fresh_app =
  (Returned false,
   {| app_env := TestWorld.start TestWorld.web;
      session := {| urls_content := Demo.failed_contents; qa_chain := None;
                    processed_urls := []; error_logs := [] |} |}).
Proof.
  apply (@process_callback_nothing_to_index TestWorld.externals Demo.with_credentials
           Demo.failed_contents TestWorld.fresh_app).
  intros k v [H|[]]. injection H as <- <-. reflexivity.
Defined.

Lemma process_callback_without_token_witness :
  exists split_docs e1,
    split_documents (create_documents_from_contents Demo.partial_contents)
      (TestWorld.start TestWorld.web) = (Returned split_docs, e1) /\
    process_callback Demo.without_token Demo.partial_contents TestWorld.fresh_app =
    (Returned false,
     {| app_env := e1;
        session := {| urls_content := Demo.partial_contents; qa_chain := None;
                      processed_urls := [];
                      error_logs := [no_embeddings_message] |} |}).
Proof.
  do 2 eexists.
  assert (Hs : forall sd e1,
            split_documents (create_documents_from_contents Demo.partial_contents)
              (app_env TestWorld.fresh_app) = (Returned sd, e1) ->
            split_documents (create_documents_from_contents Demo.partial_contents)
              (TestWorld.start TestWorld.web) = (Returned sd, e1) /\
            process_callback Demo.without_token Demo.partial_contents TestWorld.fresh_app =
            (Returned false,
             {| app_env := e1;
                session := {| urls_content := Demo.partial_contents; qa_chain := None;
                              processed_urls := [];
                              error_logs := [no_embeddings_message] |} |})).
  { intros sd e1 H. split; [exact H|].
    apply (@process_callback_without_token TestWorld.externals Demo.without_token
             Demo.partial_contents TestWorld.fresh_app sd e1); auto.
    discriminate. }
  apply Hs. vm_compute. reflexivity.
Defined.

Lemma create_vector_store_wraps_client_error_witness :
  @create_vector_store Demo.refusing_embeddings Demo.with_credentials []
    (@mkEnv Demo.refusing_embeddings TestWorld.web []) =
  (Raised (ValueError (Py.lit "Error creating embeddings: 401 Unauthorized")),
   @mkEnv Demo.refusing_embeddings TestWorld.web
     [Ext_Embeddings_init (Py.lit "hf-demo") embedding_model]).
Proof.
  apply (@create_vector_store_wraps_client_error Demo.refusing_embeddings
           Demo.with_credentials (Py.lit "hf-demo") []
           (@mkEnv Demo.refusing_embeddings TestWorld.web [])
           Demo.unauthorized TestWorld.web); reflexivity.
Defined.

Lemma main_answers_with_current_chain_witness :
  exists answer a' chain,
    main Demo.with_credentials TestWorld.eager_user TestWorld.fresh_app
      = (Returned (Some answer), a') /\
    qa_chain (session a') = Some chain.
Proof.
  assert (H : exists answer a',
            main Demo.with_credentials TestWorld.eager_user TestWorld.fresh_app
            = (Returned (Some answer), a'))
    by (do 2 eexists; vm_compute; reflexivity).
  destruct H as (answer & a' & H).
  destruct (@main_answers_with_current_chain TestWorld.externals _ _ _ _ _ H)
    as (_ & _ & chain & e0 & Hq & _).
  exists answer, a', chain. now split.
Defined.

Lemma credential_warning_cases_witness :
  Py.truthy_opt (has_credentials Demo.azure_without_endpoint) = false /\
  credential_warning Demo.azure_without_endpoint = None.
Proof.
  destruct (credential_warning_cases Demo.azure_without_endpoint) as [_ H].
  apply H; reflexivity.
Defined.

(* ================================================================== *)
(** ** More examples *)
(* ================================================================== *)

(** The batch loader is down and WebBaseLoader reaches page b but not
    page a: the mapping holds page b, and the single-page extractor is
    not called, for neither URL. *)
Example cascade_stops_after_webbaseloader :
  @process_urls Fakes.batch_down [TestWorld.url_b; TestWorld.url_a] true
    (@mkEnv Fakes.batch_down TestWorld.web []) =
  (Returned [(TestWorld.url_b, TestWorld.text_b)],
   @mkEnv Fakes.batch_down TestWorld.web
     [Call_html2text [TestWorld.url_b; TestWorld.url_a];
      Ext_AsyncHtmlLoader_load [TestWorld.url_b; TestWorld.url_a];
      Call_langchain TestWorld.url_b; Ext_WebBaseLoader_load TestWorld.url_b;
      Call_langchain TestWorld.url_a; Ext_WebBaseLoader_load TestWorld.url_a]).
Proof. vm_compute. reflexivity. Qed.

(** With the BeautifulSoup method the redirecting loader is not used and
    the key is the cleaned URL. *)
Example redirect_not_seen_by_beautifulsoup :
  fst (@process_urls Fakes.redirecting [TestWorld.url_b] false
         (@mkEnv Fakes.redirecting TestWorld.web []))
  = Returned [(TestWorld.url_b, TestWorld.text_b)].
Proof. vm_compute. reflexivity. Qed.
